(** * lib/review.py: the Review entity manager

    A shallow embedding of [src/lib/review.py]: the three validating
    property setters, the identity cache [Review.all], and the row
    operations [save], [create], [instance_from_db], [find_by_id],
    [update], [delete] and [get_all], over an explicit store made of the
    Python heap, the class-level cache, the [reviews] table and the
    Employee collaborator.

    Python exceptions are results: every operation is a function from the
    store to an outcome and the store at the moment it returned or raised,
    so that a partial in-place update is visible after a failure.

    The sqlite3 cursor and lib/employee.py are not part of the file.  The
    table is a list of rows in scan order, which for this table is the order
    of the row ids.  [CURSOR.execute] first binds its parameters, and
    refuses an [int] outside 64 bits and a [str] that UTF-8 cannot encode;
    the statement runs only when every parameter is bound.  An INSERT takes
    the largest row id plus one, or else an unused id drawn at random, and
    every statement leaves [CURSOR.lastrowid] at the id of the last row
    inserted.  There is one cursor, [CURSOR], and the table exists, so
    [create_table] and [drop_table] have no counterpart here.
    [Employee.find_by_id] is the lookup the specification describes. *)

From Stdlib Require Import ZArith NArith Ascii String.
From stdpp Require Import gmap list strings.

Local Open Scope Z_scope.

(** ** Python values *)

(** A Python [str] is its sequence of code points. *)
Abbreviation pystr := (list N) (only parsing).

(** The instances of [int]: an [int] proper, or a [bool], which Python
    makes a subclass of [int] with the values 0 and 1. *)
Inductive pyint : Type :=
| PyLong (z : Z)
| PyBool (b : bool).

(** The values the class handles: [None], instances of [int], instances of
    [str].  The type tests of the source are [isinstance(_, int)] and
    [isinstance(_, str)]; a value of another type fails both, as [None]
    does. *)
Inductive pyval : Type :=
| VNone
| VInt (n : pyint)
| VStr (s : pystr).

Definition int_value (n : pyint) : Z :=
  match n with
  | PyLong z => z
  | PyBool b => Z.b2z b
  end.

(** [isinstance(v, int)] and [isinstance(v, str)]. *)
Definition isinstance_int (v : pyval) : bool :=
  match v with VInt _ => true | _ => false end.

Definition isinstance_str (v : pyval) : bool :=
  match v with VStr _ => true | _ => false end.


(** The code points of a literal. *)
Definition py (s : string) : pystr :=
  map N_of_ascii (list_ascii_of_string s).

#[global] Instance pyint_eq_dec : EqDecision pyint.
Proof. solve_decision. Defined.

#[global] Instance pyval_eq_dec : EqDecision pyval.
Proof. solve_decision. Defined.

#[global] Instance pyint_countable : Countable pyint.
Proof.
  refine (inj_countable'
    (fun n => match n with PyLong z => inl z | PyBool b => inr b end)
    (fun x => match x with inl z => PyLong z | inr b => PyBool b end) _).
  by intros [].
Defined.

#[global] Instance pyval_countable : Countable pyval.
Proof.
  refine (inj_countable'
    (fun v => match v with
              | VNone => inl tt
              | VInt n => inr (inl n)
              | VStr s => inr (inr s)
              end)
    (fun x => match x with
              | inl _ => VNone
              | inr (inl n) => VInt n
              | inr (inr s) => VStr s
              end) _).
  by intros [].
Defined.

(** ** [str.strip()] *)

(** [str.isspace] on one code point: the characters [strip()] removes when
    it is called without an argument. *)
Definition is_space (c : N) : bool :=
  ((9 <=? c) && (c <=? 13) || (28 <=? c) && (c <=? 32)
   || (c =? 133) || (c =? 160) || (c =? 5760)
   || (8192 <=? c) && (c <=? 8202)
   || (c =? 8232) || (c =? 8233) || (c =? 8239) || (c =? 8287)
   || (c =? 12288))%N.

Fixpoint lstrip (s : pystr) : pystr :=
  match s with
  | c :: s' => if is_space c then lstrip s' else s
  | [] => []
  end.

Definition rstrip (s : pystr) : pystr := rev (lstrip (rev s)).

Definition strip (s : pystr) : pystr := rstrip (lstrip s).

(** ** 64-bit integers *)

(** SQLite's INTEGER, the type of a row id, is a signed 64-bit integer. *)
Definition int64 (z : Z) : Prop := - 2 ^ 63 <= z < 2 ^ 63.

Definition max_int64 : Z := 2 ^ 63 - 1.

Definition int64_wrap (z : Z) : Z := (z + 2 ^ 63) mod 2 ^ 64 - 2 ^ 63.

#[global] Instance int64_dec (z : Z) : Decision (int64 z).
Proof. unfold int64. apply _. Defined.

(** ** Exceptions and outcomes *)

(** [UnicodeEncodeError] carries the code point UTF-8 refuses and its
    position in the string. *)
Inductive exn : Type :=
| ValueError (msg : string)
| KeyError (key : pyval)
| AttributeError (attr : string)
| OverflowError (msg : string)
| UnicodeEncodeError (code_point : N) (position : nat)
| OperationalError (msg : string).

Inductive result (A : Type) : Type :=
| Ok (a : A)
| Raise (e : exn).

Arguments Ok {A} a.
Arguments Raise {A} e.

(** ** The store *)

(** A reference to a Review instance: its index in the heap. *)
Abbreviation loc := nat (only parsing).

(** The attributes of a Review instance; [None] is an attribute that has
    not been assigned yet.  [id] is a plain attribute and holds whatever it
    is given.  [_year], [_summary] and [_employee_id] are assigned only by
    their setters, behind the [isinstance] test, so they hold an instance
    of [int], of [str] and of [int]. *)
Record instance : Type := Instance {
  id : option pyval;
  _year : option pyint;
  _summary : option pystr;
  _employee_id : option pyint;
}.

Definition no_attributes : instance :=
  {| id := None; _year := None; _summary := None; _employee_id := None |}.

(** A cell of the table, by SQLite storage class. *)
Inductive sqlval : Type :=
| SNull
| SInteger (z : Z)
| SText (s : pystr).

(** A row of [reviews (id INTEGER PRIMARY KEY, year INTEGER, summary TEXT,
    employee_id INTEGER)]. *)
Record sqlrow : Type := SqlRow {
  id_column : Z;
  c_year : sqlval;
  c_summary : sqlval;
  c_employee_id : sqlval;
}.

(** The id of a row, a signed 64-bit integer: the column is read modulo
    2^64. *)
Definition rowid (r : sqlrow) : Z := int64_wrap (id_column r).

Arguments rowid : simpl never.

(** A fetched row, the tuple [(id, year, summary, employee_id)]. *)
Abbreviation pyrow := (pyval * pyval * pyval * pyval)%type (only parsing).

(** The whole store.  [heap] holds the Review instances; [all] is the class
    attribute [Review.all], a dict from ids to instances; [reviews] is the
    table, its rows in scan order; [lastrowid] is [CURSOR.lastrowid], [None]
    on a cursor that has executed nothing; [employees] is the set of ids the
    Employee collaborator resolves; [rowid_draws] is what the engine's
    random generator yields next, one 64-bit value a draw, and 0 from the
    end of the list on. *)
Record world : Type := World {
  heap : list instance;
  all : gmap pyval loc;
  reviews : list sqlrow;
  lastrowid : pyval;
  employees : gset Z;
  rowid_draws : list Z;
}.

Definition with_heap (h : list instance) (w : world) : world :=
  {| heap := h; all := all w; reviews := reviews w;
     lastrowid := lastrowid w; employees := employees w;
     rowid_draws := rowid_draws w |}.

Definition with_all (d : gmap pyval loc) (w : world) : world :=
  {| heap := heap w; all := d; reviews := reviews w;
     lastrowid := lastrowid w; employees := employees w;
     rowid_draws := rowid_draws w |}.

Definition with_reviews (t : list sqlrow) (w : world) : world :=
  {| heap := heap w; all := all w; reviews := t;
     lastrowid := lastrowid w; employees := employees w;
     rowid_draws := rowid_draws w |}.

Definition with_lastrowid (v : pyval) (w : world) : world :=
  {| heap := heap w; all := all w; reviews := reviews w;
     lastrowid := v; employees := employees w;
     rowid_draws := rowid_draws w |}.

Definition with_rowid_draws (d : list Z) (w : world) : world :=
  {| heap := heap w; all := all w; reviews := reviews w;
     lastrowid := lastrowid w; employees := employees w;
     rowid_draws := d |}.

(** ** Computations that read and write the store and may raise *)

Definition M (A : Type) : Type := world -> result A * world.

Definition ret {A : Type} (a : A) : M A := fun w => (Ok a, w).

Definition raise {A : Type} (e : exn) : M A := fun w => (Raise e, w).

Definition bind {A B : Type} (m : M A) (k : A -> M B) : M B :=
  fun w =>
    match m w with
    | (Ok a, w') => k a w'
    | (Raise e, w') => (Raise e, w')
    end.

Notation "'let*' x ':=' m 'in' k" := (bind m (fun x => k))
  (at level 10, x name, m at level 100, k at level 200).

Notation "m ';;' k" := (bind m (fun _ => k))
  (at level 100, k at level 200, right associativity).

Definition gets {A : Type} (f : world -> A) : M A := fun w => (Ok (f w), w).

Definition modify (f : world -> world) : M unit := fun w => (Ok tt, f w).

(** A list comprehension whose body may raise: left to right, stopping at
    the first exception. *)
Fixpoint for_each {A B : Type} (f : A -> M B) (xs : list A) : M (list B) :=
  match xs with
  | [] => ret []
  | x :: xs' =>
      let* y := f x in
      let* ys := for_each f xs' in
      ret (y :: ys)
  end.

(** ** Attributes *)

Definition getattr {A : Type} (field : instance -> option A) (name : string)
    (self : loc) : M A :=
  fun w =>
    match heap w !! self ≫= field with
    | Some v => (Ok v, w)
    | None => (Raise (AttributeError name), w)
    end.

Definition setattr (f : instance -> instance) (self : loc) : M unit :=
  modify (fun w => with_heap (alter f self (heap w)) w).

Definition store_id (v : pyval) (o : instance) : instance :=
  {| id := Some v; _year := _year o; _summary := _summary o;
     _employee_id := _employee_id o |}.

Definition store_year (n : pyint) (o : instance) : instance :=
  {| id := id o; _year := Some n; _summary := _summary o;
     _employee_id := _employee_id o |}.

Definition store_summary (s : pystr) (o : instance) : instance :=
  {| id := id o; _year := _year o; _summary := Some s;
     _employee_id := _employee_id o |}.

Definition store_employee_id (n : pyint) (o : instance) : instance :=
  {| id := id o; _year := _year o; _summary := _summary o;
     _employee_id := Some n |}.

(** [self.id] and [self.id = v]. *)
Definition get_id (self : loc) : M pyval := getattr id "id" self.

Definition set_id (self : loc) (v : pyval) : M unit :=
  setattr (store_id v) self.

(** Modelled from the spec: [Employee.find_by_id], of lib/employee.py, a
    lookup by id that returns the found record or the absence signal.  The
    record is represented by its id. *)
Definition Employee_find_by_id (n : pyint) : M (option Z) :=
  gets (fun w =>
    if decide (int_value n ∈ employees w) then Some (int_value n) else None).

(** *** The properties [year], [summary] and [employee_id] *)

(** The errors the setters raise. *)
Definition year_error : exn := ValueError "Year must be integer >= 2000".
Definition summary_error : exn := ValueError "Summary must be non-empty string".
Definition employee_id_error : exn :=
  ValueError "employee_id must reference existing Employee".

Definition year (self : loc) : M pyval :=
  let* n := getattr _year "_year" self in ret (VInt n).

Definition year_setter (self : loc) (year : pyval) : M unit :=
  match year with
  | VInt n =>
      if 2000 <=? int_value n
      then setattr (store_year n) self
      else raise year_error
  | _ => raise year_error
  end.

Definition summary (self : loc) : M pyval :=
  let* s := getattr _summary "_summary" self in ret (VStr s).

Definition summary_setter (self : loc) (summary : pyval) : M unit :=
  match summary with
  | VStr s =>
      if (0 <? length (strip s))%nat
      then setattr (store_summary s) self
      else raise summary_error
  | _ => raise summary_error
  end.

Definition employee_id (self : loc) : M pyval :=
  let* n := getattr _employee_id "_employee_id" self in ret (VInt n).

Definition employee_id_setter (self : loc) (employee_id : pyval) : M unit :=
  match employee_id with
  | VInt n =>
      let* found := Employee_find_by_id n in
      match found with
      | Some _ => setattr (store_employee_id n) self
      | None => raise employee_id_error
      end
  | _ => raise employee_id_error
  end.

(** *** Construction *)

Definition __init__ (self : loc) (year summary employee_id id : pyval)
    : M unit :=
  set_id self id ;;
  year_setter self year ;;
  summary_setter self summary ;;
  employee_id_setter self employee_id.

(** The call [Review(year, summary, employee_id, id)]: a fresh instance
    with no attribute, then [__init__] on it. *)
Definition new_instance : M loc :=
  fun w => (Ok (length (heap w)), with_heap (heap w ++ [no_attributes]) w).

Definition Review (year summary employee_id id : pyval) : M loc :=
  let* self := new_instance in
  __init__ self year summary employee_id id ;;
  ret self.

(** ** The identity cache [Review.all] *)

(** Keys of a dict are compared with [==] and hashed accordingly: [True]
    and [1] are one key. *)
Definition dict_key (k : pyval) : pyval :=
  match k with
  | VInt n => VInt (PyLong (int_value n))
  | _ => k
  end.

(** [cls.all.get(k)]. *)
Definition all_get (k : pyval) : M (option loc) :=
  gets (fun w => all w !! dict_key k).

(** [cls.all[k] = v]. *)
Definition all_setitem (k : pyval) (v : loc) : M unit :=
  modify (fun w => with_all (<[dict_key k := v]> (all w)) w).

(** [del cls.all[k]]. *)
Definition all_delitem (k : pyval) : M unit :=
  fun w =>
    match all w !! dict_key k with
    | Some _ => (Ok tt, with_all (delete (dict_key k) (all w)) w)
    | None => (Raise (KeyError k), w)
    end.

(** ** The [reviews] table *)

(** The storage value of a Python value that can be bound to a [?]
    placeholder. *)
Definition sql_bind (v : pyval) : sqlval :=
  match v with
  | VNone => SNull
  | VInt n => SInteger (int_value n)
  | VStr s => SText s
  end.

(** A surrogate code point, which UTF-8 does not encode. *)
Definition is_surrogate (c : N) : bool := ((55296 <=? c) && (c <=? 57343))%N.

(** The first surrogate of a string and its position, from [i] on. *)
Fixpoint first_surrogate (i : nat) (s : pystr) : option (N * nat) :=
  match s with
  | [] => None
  | c :: s' => if is_surrogate c then Some (c, i) else first_surrogate (S i) s'
  end.

Definition overflow_error : exn :=
  OverflowError "Python int too large to convert to SQLite INTEGER".

(** Why a value cannot be bound, if it cannot: an [int] outside 64 bits,
    a [str] with a surrogate in it. *)
Definition refusal (v : pyval) : option exn :=
  match v with
  | VNone => None
  | VInt n => if decide (int64 (int_value n)) then None else Some overflow_error
  | VStr s =>
      match first_surrogate 0 s with
      | Some (c, i) => Some (UnicodeEncodeError c i)
      | None => None
      end
  end.

(** The binding of one parameter, the first thing [CURSOR.execute] does. *)
Definition adapt (v : pyval) : M sqlval :=
  match refusal v with
  | Some e => raise e
  | None => ret (sql_bind v)
  end.

(** A cell as the cursor returns it. *)
Definition sql_fetch (c : sqlval) : pyval :=
  match c with
  | SNull => VNone
  | SInteger z => VInt (PyLong z)
  | SText s => VStr s
  end.

Definition fetch_row (r : sqlrow) : pyrow :=
  (VInt (PyLong (rowid r)), sql_fetch (c_year r), sql_fetch (c_summary r),
   sql_fetch (c_employee_id r)).

(** The largest rowid in the table, and one more than it, 1 for an empty
    table. *)
Definition max_rowid (t : list sqlrow) : option Z :=
  foldr (fun r m => Some (from_option (Z.max (rowid r)) (rowid r) m)) None t.

Definition next_rowid (t : list sqlrow) : Z :=
  from_option Z.succ 1 (max_rowid t).

(** When the largest possible rowid is taken the engine draws candidates
    at random, each one the draw masked to 62 bits, plus one, and takes the
    first that is not in use; it gives up after 100 of them. *)
Definition candidate (bits : Z) : Z := Z.land bits (Z.shiftr max_int64 1) + 1.

Fixpoint draw_rowid (tries : nat) (used : list Z) (draws : list Z)
    : option Z * list Z :=
  match tries with
  | S tries' =>
      if decide (candidate (hd 0 draws) ∈ used)
      then draw_rowid tries' used (tl draws)
      else (Some (candidate (hd 0 draws)), tl draws)
  | O => (None, draws)
  end.

(** The rowid an INSERT gives the new row, if it finds one, and the draws
    that are left. *)
Definition new_rowid (t : list sqlrow) (draws : list Z)
    : option Z * list Z :=
  if decide (max_rowid t = Some max_int64)
  then draw_rowid 100 (rowid <$> t) draws
  else (Some (next_rowid t), draws).

(** The scan order is the order of the rowids: a new row goes before the
    first row of a larger rowid. *)
Fixpoint insert_row (r : sqlrow) (t : list sqlrow) : list sqlrow :=
  match t with
  | [] => [r]
  | x :: t' => if rowid r <? rowid x then r :: t else x :: insert_row r t'
  end.

Definition database_full : exn := OperationalError "database or disk is full".

(** [CURSOR.lastrowid] once a statement has run: the id of the last row
    inserted, 0 when the cursor has inserted none. *)
Definition cursor_used (w : world) : world :=
  match lastrowid w with
  | VNone => with_lastrowid (VInt (PyLong 0)) w
  | _ => w
  end.

Section Review.

(** SQLite compares the INTEGER PRIMARY KEY column with a TEXT operand
    after converting the text to an integer where it denotes one.  That
    conversion belongs to the engine; the operations are given over it. *)
Variable integer_of_text : pystr -> option Z.

(** [id = ?] on a row. *)
Definition id_equals (p : sqlval) (r : sqlrow) : bool :=
  match p with
  | SNull => false
  | SInteger z => rowid r =? z
  | SText s =>
      match integer_of_text s with
      | Some z => rowid r =? z
      | None => false
      end
  end.

(** [INSERT INTO reviews (year, summary, employee_id) VALUES (?, ?, ?)],
    its parameters bound. *)
Definition execute_insert (year summary employee_id : sqlval) : M unit :=
  fun w =>
    match new_rowid (reviews w) (rowid_draws w) with
    | (Some n, draws) =>
        (Ok tt,
         with_rowid_draws draws
           (with_lastrowid (VInt (PyLong n))
              (with_reviews
                 (insert_row (SqlRow n year summary employee_id) (reviews w))
                 w)))
    | (None, draws) => (Raise database_full, with_rowid_draws draws w)
    end.

(** [SELECT * FROM reviews WHERE id = ?], the rows it yields. *)
Definition execute_select_by_id (p : sqlval) : M (list pyrow) :=
  fun w =>
    (Ok (fetch_row <$> filter (fun r => id_equals p r) (reviews w)),
     cursor_used w).

(** [SELECT * FROM reviews], the rows it yields. *)
Definition execute_select : M (list pyrow) :=
  fun w => (Ok (fetch_row <$> reviews w), cursor_used w).

(** [UPDATE reviews SET year = ?, summary = ?, employee_id = ?
    WHERE id = ?]. *)
Definition execute_update (year summary employee_id p : sqlval) : M unit :=
  modify (fun w =>
    cursor_used
      (with_reviews
         ((fun r => if id_equals p r
                    then SqlRow (rowid r) year summary employee_id
                    else r) <$> reviews w) w)).

(** [DELETE FROM reviews WHERE id = ?]. *)
Definition execute_delete (p : sqlval) : M unit :=
  modify (fun w =>
    cursor_used
      (with_reviews (filter (fun r => negb (id_equals p r)) (reviews w)) w)).

(** [CONN.commit()]: every statement above already acts on the table. *)
Definition commit : M unit := ret tt.

(** ** The ORM methods *)

Definition save (self : loc) : M unit :=
  let* y := year self in
  let* s := summary self in
  let* e := employee_id self in
  let* y := adapt y in
  let* s := adapt s in
  let* e := adapt e in
  execute_insert y s e ;;
  commit ;;
  let* n := gets lastrowid in
  set_id self n ;;
  let* k := get_id self in
  all_setitem k self.

Definition create (year summary employee_id : pyval) : M loc :=
  let* review := Review year summary employee_id VNone in
  save review ;;
  ret review.

Definition instance_from_db (row : pyrow) : M loc :=
  let '(r0, r1, r2, r3) := row in
  let* cached := all_get r0 in
  match cached with
  | Some review =>
      year_setter review r1 ;;
      summary_setter review r2 ;;
      employee_id_setter review r3 ;;
      ret review
  | None =>
      let* review := Review r1 r2 r3 VNone in
      set_id review r0 ;;
      let* k := get_id review in
      all_setitem k review ;;
      ret review
  end.

Definition find_by_id (id : pyval) : M (option loc) :=
  let* p := adapt id in
  let* rows := execute_select_by_id p in
  match rows with
  | row :: _ => let* review := instance_from_db row in ret (Some review)
  | [] => ret None
  end.

Definition update (self : loc) : M unit :=
  let* y := year self in
  let* s := summary self in
  let* e := employee_id self in
  let* k := get_id self in
  let* y := adapt y in
  let* s := adapt s in
  let* e := adapt e in
  let* p := adapt k in
  execute_update y s e p ;;
  commit.

Definition delete (self : loc) : M unit :=
  let* k := get_id self in
  let* p := adapt k in
  execute_delete p ;;
  commit ;;
  let* k := get_id self in
  all_delitem k ;;
  set_id self VNone.

Definition get_all : M (list loc) :=
  let* rows := execute_select in
  for_each instance_from_db rows.

End Review.

(** * The vocabulary of the properties *)

(** A string with nothing but whitespace in it, the empty one included. *)
Definition blank (s : pystr) : Prop := Forall (fun c => is_space c = true) s.

#[global] Instance blank_dec (s : pystr) : Decision (blank s).
Proof. unfold blank. apply _. Defined.

(** A reference to an instance of the heap. *)
Definition allocated (self : loc) (w : world) : Prop :=
  (self < length (heap w))%nat.

(** ** The field invariants of the data model *)

Definition valid_year (v : pyval) : Prop :=
  match v with VInt n => 2000 <= int_value n | _ => False end.

Definition valid_summary (v : pyval) : Prop :=
  match v with VStr s => ~ blank s | _ => False end.

Definition valid_employee_id (v : pyval) (w : world) : Prop :=
  match v with VInt n => int_value n ∈ employees w | _ => False end.

#[global] Instance valid_year_dec (v : pyval) : Decision (valid_year v).
Proof. destruct v; simpl; apply _. Defined.

#[global] Instance valid_summary_dec (v : pyval) : Decision (valid_summary v).
Proof. destruct v; simpl; apply _. Defined.

#[global] Instance valid_employee_id_dec (v : pyval) (w : world) :
  Decision (valid_employee_id v w).
Proof. destruct v; simpl; apply _. Defined.

(** A row, or an argument list, every setter accepts. *)
Definition valid_fields (y s e : pyval) (w : world) : Prop :=
  valid_year y /\ valid_summary s /\ valid_employee_id e w.

#[global] Instance valid_fields_dec (y s e : pyval) (w : world) :
  Decision (valid_fields y s e w).
Proof. unfold valid_fields. apply _. Defined.

(** The row as the setters see it. *)
Definition valid_row (r : sqlrow) (w : world) : Prop :=
  valid_fields (sql_fetch (c_year r)) (sql_fetch (c_summary r))
    (sql_fetch (c_employee_id r)) w.

(** The values the three setters store. *)
Definition store_fields (n : pyint) (s : pystr) (e : pyint) (o : instance)
    : instance :=
  store_employee_id e (store_summary s (store_year n o)).


(** Every cached reference is to an instance of the heap. *)
Definition cache_allocated (w : world) : Prop :=
  map_Forall (fun _ l => allocated l w) (all w).

(** ** Stores to evaluate on *)

Definition sample_instance : instance :=
  {| id := Some (VInt (PyLong 1)); _year := Some (PyLong 2023);
     _summary := Some (py "Good work"); _employee_id := Some (PyLong 1) |}.

(** One employee, one saved review of theirs. *)
Definition sample_world : world :=
  {| heap := [sample_instance];
     all := {[ VInt (PyLong 1) := 0%nat ]};
     reviews := [SqlRow 1 (SInteger 2023) (SText (py "Good work"))
                   (SInteger 1)];
     lastrowid := VInt (PyLong 1);
     employees := {[ 1 ]}; rowid_draws := [] |}.

(** A reading of decimal text, to stand for the engine's conversion. *)
Fixpoint read_digits (acc : Z) (s : pystr) : option Z :=
  match s with
  | [] => Some acc
  | c :: s' =>
      if ((48 <=? c) && (c <=? 57))%N
      then read_digits (10 * acc + Z.of_N (c - 48)) s'
      else None
  end.

Definition decimal_of_text (s : pystr) : option Z :=
  match s with
  | [] => None
  | _ => read_digits 0 s
  end.

#[global] Instance allocated_dec (l : loc) (w : world) :
  Decision (allocated l w).
Proof. unfold allocated. apply _. Defined.

#[global] Instance cache_allocated_dec (w : world) :
  Decision (cache_allocated w).
Proof. unfold cache_allocated. apply _. Defined.

(** One employee and nothing else. *)
Definition empty_world : world :=
  {| heap := []; all := ∅; reviews := []; lastrowid := VNone;
     employees := {[ 1 ]}; rowid_draws := [] |}.

(** A stored review no instance has been made for yet. *)
Definition unseen_world : world :=
  {| heap := []; all := ∅;
     reviews := [SqlRow 1 (SInteger 2023) (SText (py "Good work"))
                   (SInteger 1)];
     lastrowid := VNone;
     employees := {[ 1 ]}; rowid_draws := [] |}.

Definition fetched_world : world :=
  snd (find_by_id decimal_of_text (VInt (PyLong 1)) unseen_world).



(** Review 2 was saved for employee 7, who is gone; its instance is still
    cached. *)
Definition stale_row : sqlrow :=
  SqlRow 2 (SInteger 2024) (SText (py "Solid year")) (SInteger 7).

Definition stale_world : world :=
  {| heap := [Instance (Some (VInt (PyLong 2))) (Some (PyLong 2024))
                (Some (py "Solid year")) (Some (PyLong 7))];
     all := {[ VInt (PyLong 2) := 0%nat ]};
     reviews := [SqlRow 1 (SInteger 2023) (SText (py "Good work"))
                   (SInteger 1); stale_row];
     lastrowid := VInt (PyLong 2);
     employees := {[ 1 ]}; rowid_draws := [] |}.

(** An instance that was constructed and never saved. *)
Definition transient_instance : instance :=
  {| id := Some VNone; _year := Some (PyLong 2023);
     _summary := Some (py "Good work"); _employee_id := Some (PyLong 1) |}.

Definition transient_world : world :=
  {| heap := [transient_instance]; all := ∅;
     reviews := [SqlRow 1 (SInteger 2023) (SText (py "Good work"))
                   (SInteger 1)];
     lastrowid := VInt (PyLong 1);
     employees := {[ 1 ]}; rowid_draws := [] |}.

(** ** Further stores to evaluate on *)

(** Two stored reviews, neither of them fetched yet. *)
Definition two_rows_world : world :=
  {| heap := []; all := ∅;
     reviews := [SqlRow 1 (SInteger 2023) (SText (py "Good work"))
                   (SInteger 1);
                 SqlRow 2 (SInteger 2024) (SText (py "Solid year"))
                   (SInteger 1)];
     lastrowid := VNone;
     employees := {[ 1 ]}; rowid_draws := [] |}.

(** The cached review of [sample_world], edited in memory and not
    updated. *)
Definition unsaved_edit_world : world :=
  snd (summary_setter 0%nat (VStr (py "Draft")) sample_world).

(** The row of the cached review was rewritten behind the class: a later
    year, a blank summary. *)
Definition blank_row : sqlrow :=
  SqlRow 1 (SInteger 2025) (SText (py "  ")) (SInteger 1).

Definition blank_row_world : world :=
  {| heap := [sample_instance];
     all := {[ VInt (PyLong 1) := 0%nat ]};
     reviews := [blank_row];
     lastrowid := VInt (PyLong 1);
     employees := {[ 1 ]}; rowid_draws := [] |}.

(** ** A well-formed store *)

(** The PRIMARY KEY constraint of the table: no two rows share an id. *)
Definition primary_key (w : world) : Prop := NoDup (rowid <$> reviews w).

Definition store_ok (w : world) : Prop := primary_key w /\ cache_allocated w.

#[global] Instance store_ok_dec (w : world) : Decision (store_ok w).
Proof. unfold store_ok, primary_key. apply _. Defined.

(** ** What the storage layer holds *)

(** A value [CURSOR.execute] binds. *)
Definition storable (v : pyval) : Prop :=
  match refusal v with
  | None => True
  | Some _ => False
  end.

#[global] Instance storable_dec (v : pyval) : Decision (storable v).
Proof. unfold storable. destruct (refusal v); apply _. Defined.

(** ** Stores at the limits of the storage layer *)



(** The largest row id there is is taken; the next draws of the engine are
    0 and 5. *)
Definition last_key_world : world :=
  {| heap := [sample_instance];
     all := {[ VInt (PyLong 1) := 0%nat ]};
     reviews := [SqlRow 1 (SInteger 2023) (SText (py "Good work"))
                   (SInteger 1);
                 SqlRow max_int64 (SInteger 2024) (SText (py "Solid year"))
                   (SInteger 1)];
     lastrowid := VInt (PyLong max_int64);
     employees := {[ 1 ]}; rowid_draws := [0; 5] |}.





(** * Properties *)

(** ** Blank strings *)

Example strip_padded : strip (py "  Good work ") = py "Good work".
Proof. reflexivity. Qed.

Example strip_blank : strip (py "   ") = [].
Proof. reflexivity. Qed.

Lemma lstrip_nil_blank (s : pystr) : lstrip s = [] <-> blank s.
Proof.
  unfold blank. induction s as [|c s IH]; simpl.
  - split; [constructor | reflexivity].
  - destruct (is_space c) eqn:Hc.
    + rewrite IH. split.
      * intros H. by constructor.
      * intros H. by inversion H.
    + split; [discriminate |].
      intros H. inversion H; congruence.
Qed.

Lemma lstrip_blank (s : pystr) : blank (lstrip s) <-> blank s.
Proof.
  unfold blank. induction s as [|c s IH]; simpl; [done |].
  destruct (is_space c) eqn:Hc; [| done].
  rewrite IH. split.
  - intros H. by constructor.
  - intros H. by inversion H.
Qed.

Lemma strip_nil_blank (s : pystr) : strip s = [] <-> blank s.
Proof.
  unfold strip, rstrip.
  rewrite <- (lstrip_blank s).
  set (t := lstrip s).
  split.
  - intros H. apply (f_equal (@rev N)) in H. rewrite rev_involutive in H.
    simpl in H. apply lstrip_nil_blank in H.
    unfold blank in *. by apply Forall_rev in H; rewrite rev_involutive in H.
  - intros H. apply Forall_rev in H. apply lstrip_nil_blank in H.
    by rewrite H.
Qed.

Lemma strip_length_pos (s : pystr) :
  (0 < length (strip s))%nat <-> ~ blank s.
Proof.
  rewrite <- strip_nil_blank.
  destruct (strip s); simpl; split; intros H; try done; lia.
Qed.

(** ** The store after an assignment *)

Lemma allocated_lookup (self : loc) (w : world) :
  allocated self w -> exists o, heap w !! self = Some o.
Proof. intros H. by apply lookup_lt_is_Some_2. Qed.


(** ** The setters, case by case *)

Lemma year_setter_accepts (self : loc) (n : pyint) (w : world) :
  2000 <= int_value n ->
  year_setter self (VInt n) w
  = (Ok tt, with_heap (alter (store_year n) self (heap w)) w).
Proof. intros H. simpl. by rewrite (proj2 (Z.leb_le _ _) H). Qed.


Lemma year_setter_inv (self : loc) (v : pyval) (w w' : world)
    (r : result unit) :
  year_setter self v w = (r, w') ->
  (exists n, v = VInt n /\ 2000 <= int_value n /\ r = Ok tt
             /\ w' = with_heap (alter (store_year n) self (heap w)) w)
  \/ ((forall n, v = VInt n -> int_value n < 2000)
      /\ r = Raise year_error /\ w' = w).
Proof.
  destruct v as [|n|s]; simpl.
  - intros [= <- <-]. right. by repeat split.
  - destruct (Z.leb_spec 2000 (int_value n)) as [Hn|Hn]; intros [= <- <-].
    + left. by exists n.
    + right. repeat split; try done. by intros ? [= <-].
  - intros [= <- <-]. right. by repeat split.
Qed.

Lemma summary_setter_accepts (self : loc) (s : pystr) (w : world) :
  ~ blank s ->
  summary_setter self (VStr s) w
  = (Ok tt, with_heap (alter (store_summary s) self (heap w)) w).
Proof.
  intros H%strip_length_pos. simpl.
  by rewrite (proj2 (Nat.ltb_lt _ _) H).
Qed.

Lemma summary_setter_rejects (self : loc) (v : pyval) (w : world) :
  (forall s, v = VStr s -> blank s) ->
  summary_setter self v w = (Raise summary_error, w).
Proof.
  intros H. destruct v as [|n|s]; try done. simpl.
  specialize (H s eq_refl).
  destruct (Nat.ltb_spec 0 (length (strip s))) as [Hs|Hs]; [| done].
  by apply strip_length_pos in Hs.
Qed.

Lemma summary_cases (v : pyval) :
  (forall s, v = VStr s -> blank s) \/ (exists s, v = VStr s /\ ~ blank s).
Proof.
  destruct v as [|n|s]; try by left.
  destruct (decide (blank s)) as [Hs|Hs].
  - left. by intros ? [= <-].
  - right. by exists s.
Qed.

Lemma summary_setter_inv (self : loc) (v : pyval) (w w' : world)
    (r : result unit) :
  summary_setter self v w = (r, w') ->
  (exists s, v = VStr s /\ ~ blank s /\ r = Ok tt
             /\ w' = with_heap (alter (store_summary s) self (heap w)) w)
  \/ ((forall s, v = VStr s -> blank s)
      /\ r = Raise summary_error /\ w' = w).
Proof.
  destruct (summary_cases v) as [Hv|[s [-> Hs]]].
  - rewrite summary_setter_rejects by done. intros [= <- <-]. by right.
  - rewrite summary_setter_accepts by done. intros [= <- <-].
    left. by exists s.
Qed.

Lemma employee_id_setter_accepts (self : loc) (n : pyint) (w : world) :
  int_value n ∈ employees w ->
  employee_id_setter self (VInt n) w
  = (Ok tt, with_heap (alter (store_employee_id n) self (heap w)) w).
Proof.
  intros H. unfold employee_id_setter, Employee_find_by_id, bind, gets.
  by rewrite decide_True.
Qed.

Lemma employee_id_setter_rejects (self : loc) (v : pyval) (w : world) :
  (forall n, v = VInt n -> int_value n ∉ employees w) ->
  employee_id_setter self v w = (Raise employee_id_error, w).
Proof.
  intros H. destruct v as [|n|s]; try done.
  unfold employee_id_setter, Employee_find_by_id, bind, gets.
  by rewrite decide_False by by apply H.
Qed.

Lemma employee_id_cases (v : pyval) (w : world) :
  (forall n, v = VInt n -> int_value n ∉ employees w)
  \/ (exists n, v = VInt n /\ int_value n ∈ employees w).
Proof.
  destruct v as [|n|s]; try by left.
  destruct (decide (int_value n ∈ employees w)) as [Hn|Hn].
  - right. by exists n.
  - left. by intros ? [= <-].
Qed.

Lemma employee_id_setter_inv (self : loc) (v : pyval) (w w' : world)
    (r : result unit) :
  employee_id_setter self v w = (r, w') ->
  (exists n, v = VInt n /\ int_value n ∈ employees w /\ r = Ok tt
             /\ w' = with_heap (alter (store_employee_id n) self (heap w)) w)
  \/ ((forall n, v = VInt n -> int_value n ∉ employees w)
      /\ r = Raise employee_id_error /\ w' = w).
Proof.
  destruct (employee_id_cases v w) as [Hv|[n [-> Hn]]].
  - rewrite employee_id_setter_rejects by done. intros [= <- <-]. by right.
  - rewrite employee_id_setter_accepts by done. intros [= <- <-].
    left. by exists n.
Qed.

(** The three assignments in a row, as [__init__] and [instance_from_db]
    make them. *)
Lemma setters_accept (self : loc) (n : pyint) (s : pystr) (e : pyint)
    (w : world) :
  2000 <= int_value n -> ~ blank s -> int_value e ∈ employees w ->
  (year_setter self (VInt n) ;; summary_setter self (VStr s) ;;
   employee_id_setter self (VInt e)) w
  = (Ok tt, with_heap (alter (store_fields n s e) self (heap w)) w).
Proof.
  intros Hn Hs He. unfold bind.
  rewrite year_setter_accepts by done.
  rewrite summary_setter_accepts by done.
  rewrite employee_id_setter_accepts by done.
  unfold with_heap. simpl. do 2 f_equal.
  by rewrite !list_alter_alter_eq.
Qed.

Lemma with_heap_same (w : world) : with_heap (heap w) w = w.
Proof. by destruct w. Qed.

Lemma setters_inv (self : loc) (y s e : pyval) (w w' : world)
    (r : result unit) :
  (year_setter self y ;; summary_setter self s ;;
   employee_id_setter self e) w = (r, w') ->
  (exists n sm en, y = VInt n /\ s = VStr sm /\ e = VInt en
     /\ valid_fields y s e w /\ r = Ok tt
     /\ w' = with_heap (alter (store_fields n sm en) self (heap w)) w)
  \/ (~ valid_fields y s e w
      /\ (exists m, r = Raise (ValueError m))
      /\ exists f, w' = with_heap (alter f self (heap w)) w).
Proof.
  unfold bind.
  destruct (year_setter self y w) as [r1 w1] eqn:H1.
  apply year_setter_inv in H1 as [(n & -> & Hn & -> & ->)|(Hy & -> & ->)].
  2:{ intros [= <- <-]. right. split; [| split].
      - intros (Hv & _). destruct y; try done. simpl in Hv.
        specialize (Hy _ eq_refl). lia.
      - by eexists.
      - exists (fun o => o).
        by rewrite list_alter_id, with_heap_same. }
  destruct (summary_setter self s _) as [r2 w2] eqn:H2.
  apply summary_setter_inv in H2 as [(sm & -> & Hs & -> & ->)|(Hs & -> & ->)].
  2:{ intros [= <- <-]. right. split; [| split].
      - intros (_ & Hv & _). destruct s; try done. simpl in Hv.
        by specialize (Hs _ eq_refl).
      - by eexists.
      - by eexists. }
  destruct (employee_id_setter self e _) as [r3 w3] eqn:H3.
  apply employee_id_setter_inv in H3
    as [(en & -> & He & -> & ->)|(He & -> & ->)].
  2:{ intros [= <- <-]. right. split; [| split].
      - intros (_ & _ & Hv). destruct e; try done. simpl in Hv.
        by specialize (He _ eq_refl).
      - by eexists.
      - eexists. unfold with_heap. simpl. f_equal.
        by rewrite list_alter_alter_eq. }
  intros [= <- <-]. left. exists n, sm, en.
  repeat split; try done.
  unfold with_heap. simpl. f_equal.
  by rewrite !list_alter_alter_eq.
Qed.

(** ** The constructor *)

Lemma alter_new_instance (f : instance -> instance) (h : list instance)
    (o : instance) :
  alter f (length h) (h ++ [o]) = h ++ [f o].
Proof.
  rewrite alter_app_r_alt by lia.
  by rewrite Nat.sub_diag.
Qed.

Lemma Review_accepts (n : pyint) (s : pystr) (e : pyint) (i : pyval)
    (w : world) :
  2000 <= int_value n -> ~ blank s -> int_value e ∈ employees w ->
  Review (VInt n) (VStr s) (VInt e) i w
  = (Ok (length (heap w)),
     with_heap (heap w ++ [Instance (Some i) (Some n) (Some s) (Some e)]) w).
Proof.
  intros Hn Hs He. unfold Review, __init__, new_instance.
  unfold bind at 1 2 3. unfold set_id, setattr, modify.
  rewrite setters_accept by done.
  unfold ret, with_heap. simpl. do 2 f_equal.
  by rewrite !alter_new_instance.
Qed.

Lemma Review_inv (y s e i : pyval) (w w' : world) (r : result loc) :
  Review y s e i w = (r, w') ->
  (exists n sm en, y = VInt n /\ s = VStr sm /\ e = VInt en
     /\ valid_fields y s e w /\ r = Ok (length (heap w))
     /\ w' = with_heap
               (heap w ++ [Instance (Some i) (Some n) (Some sm) (Some en)]) w)
  \/ (~ valid_fields y s e w
      /\ (exists m, r = Raise (ValueError m))
      /\ all w' = all w /\ reviews w' = reviews w
      /\ lastrowid w' = lastrowid w /\ employees w' = employees w
      /\ exists o, heap w' = heap w ++ [o]).
Proof.
  unfold Review, __init__, new_instance.
  unfold bind at 1 2 3. unfold set_id, setattr, modify.
  match goal with
  | |- context [bind ?a ?k ?w0] => destruct (bind a k w0) as [r1 w1] eqn:H
  end.
  apply setters_inv in H
    as [(n & sm & en & -> & -> & -> & Hv & -> & ->)|(Hv & [m ->] & Hs)].
  - intros [= <- <-]. left. exists n, sm, en.
    repeat split; try apply Hv.
    unfold with_heap. simpl. f_equal.
    by rewrite !alter_new_instance.
  - intros [= <- <-]. right. destruct Hs as [f ->]. simpl.
    repeat split; try done; [by eexists |].
    rewrite !alter_new_instance. by eexists.
Qed.

Lemma lookup_new_instance (h : list instance) (o : instance) :
  (h ++ [o]) !! length h = Some o.
Proof. by apply list_lookup_middle. Qed.


(** ** C3: the year setter *)



(** ** C4: the summary setter *)

(** C4. Assigning [v] to [summary] raises the validation error unless [v]
    is a string whose stripped form has a length above 0, that is, unless
    it holds a character that is not whitespace; on success the string is
    stored and read back as given, untrimmed. *)
Theorem summary_assignment (self : loc) (v : pyval) (w : world) :
  allocated self w ->
  (isinstance_str v = false
   \/ (exists s, v = VStr s /\ length (strip s) = 0%nat) ->
     summary_setter self v w = (Raise summary_error, w))
  /\ (forall s, v = VStr s -> (0 < length (strip s))%nat ->
        exists w', summary_setter self v w = (Ok tt, w')
                   /\ summary self w' = (Ok (VStr s), w')
                   /\ heap w' !! self ≫= _summary = Some s)
  /\ (forall s, length (strip s) = 0%nat <-> blank s).
Proof.
  intros Hself. split; [| split].
  - intros Hbad. apply summary_setter_rejects. intros s ->.
    destruct Hbad as [Hi|(s' & [= <-] & Hs)]; [done |].
    apply strip_nil_blank. by destruct (strip s).
  - intros s -> Hs. apply strip_length_pos in Hs.
    eexists. split; [by apply summary_setter_accepts |].
    destruct (allocated_lookup _ _ Hself) as [o Ho].
    unfold summary, bind, getattr. simpl.
    by rewrite list_lookup_alter_eq, Ho.
  - intros s. rewrite <- strip_nil_blank.
    destruct (strip s); simpl; split; intros H; done.
Qed.

Lemma summary_assignment_witness :
  allocated 0 sample_world
  /\ summary_setter 0 (VStr (py "   ")) sample_world
     = (Raise summary_error, sample_world)
  /\ exists w', summary_setter 0 (VStr (py " Fine  ")) sample_world
                = (Ok tt, w')
                /\ summary 0 w' = (Ok (VStr (py " Fine  ")), w')
                /\ heap w' !! 0%nat ≫= _summary = Some (py " Fine  ").
Proof.
  assert (H : allocated 0 sample_world) by (unfold allocated; simpl; lia).
  split; [exact H |]. split.
  - apply (proj1 (summary_assignment 0 (VStr (py "   ")) sample_world H)).
    right. exists (py "   "). split; reflexivity.
  - apply (proj1 (proj2
      (summary_assignment 0 (VStr (py " Fine  ")) sample_world H))
      (py " Fine  ") eq_refl).
    vm_compute. lia.
Defined.

(** ** C5: the employee_id setter *)

Lemma Employee_find_by_id_found (n : pyint) (w : world) :
  Employee_find_by_id n w = (Ok (Some (int_value n)), w)
  <-> int_value n ∈ employees w.
Proof. unfold Employee_find_by_id, gets. by case_decide. Qed.

Lemma Employee_find_by_id_Some (n : pyint) (w : world) (r : Z) :
  Employee_find_by_id n w = (Ok (Some r), w) -> int_value n ∈ employees w.
Proof. unfold Employee_find_by_id, gets. by case_decide. Qed.

Lemma Employee_find_by_id_absent (n : pyint) (w : world) :
  Employee_find_by_id n w = (Ok None, w) <-> int_value n ∉ employees w.
Proof. unfold Employee_find_by_id, gets. by case_decide. Qed.

(** C5. Assigning [v] to [employee_id] succeeds, and [employee_id] reads
    back [v], exactly when [v] is an instance of [int] and the lookup by id
    against the Employee collaborator, made on the store of the moment of
    the assignment, returns a record; in every other case the assignment
    raises the validation error and the store is as before. *)
Theorem employee_id_assignment (self : loc) (v : pyval) (w : world) :
  allocated self w ->
  (forall n r, v = VInt n -> Employee_find_by_id n w = (Ok (Some r), w) ->
     exists w', employee_id_setter self v w = (Ok tt, w')
                /\ employee_id self w' = (Ok v, w'))
  /\ (isinstance_int v = false
      \/ (exists n, v = VInt n /\ Employee_find_by_id n w = (Ok None, w)) ->
        employee_id_setter self v w = (Raise employee_id_error, w))
  /\ (forall w', employee_id_setter self v w = (Ok tt, w') ->
        isinstance_int v = true
        /\ exists n, v = VInt n
             /\ Employee_find_by_id n w = (Ok (Some (int_value n)), w)).
Proof.
  intros Hself. split; [| split].
  - intros n r -> Hn%Employee_find_by_id_Some.
    eexists. split; [by apply employee_id_setter_accepts |].
    destruct (allocated_lookup _ _ Hself) as [o Ho].
    unfold employee_id, bind, getattr. simpl.
    by rewrite list_lookup_alter_eq, Ho.
  - intros Hbad. apply employee_id_setter_rejects. intros n ->.
    destruct Hbad as [Hi|(n' & [= <-] & Hn)]; [done |].
    by apply Employee_find_by_id_absent.
  - intros w' H.
    apply employee_id_setter_inv in H
      as [(n & -> & Hn & _ & _)|(_ & [=] & _)].
    split; [done |]. exists n. split; [done |].
    by apply Employee_find_by_id_found.
Qed.

Lemma employee_id_assignment_witness :
  allocated 0 sample_world
  /\ (exists w', employee_id_setter 0 (VInt (PyLong 1)) sample_world
                 = (Ok tt, w')
                 /\ employee_id 0 w' = (Ok (VInt (PyLong 1)), w'))
  /\ employee_id_setter 0 (VInt (PyLong 2)) sample_world
     = (Raise employee_id_error, sample_world).
Proof.
  assert (H : allocated 0 sample_world) by (unfold allocated; simpl; lia).
  split; [exact H |]. split.
  - apply (proj1 (employee_id_assignment 0 (VInt (PyLong 1)) sample_world H)
             (PyLong 1) 1 eq_refl).
    reflexivity.
  - apply (proj1 (proj2
      (employee_id_assignment 0 (VInt (PyLong 2)) sample_world H))).
    right. exists (PyLong 2). split; reflexivity.
Defined.

(** ** Row identifiers *)

Lemma max_rowid_bound (t : list sqlrow) (r : sqlrow) :
  r ∈ t -> exists m, max_rowid t = Some m /\ rowid r <= m.
Proof.
  induction t as [|r' t IH]; [by intros ?%not_elem_of_nil |].
  intros [->|Hr]%elem_of_cons; simpl.
  - destruct (max_rowid t) as [m|]; simpl; eexists; split; try done; lia.
  - destruct (IH Hr) as (m & -> & Hm). simpl.
    eexists; split; [done | lia].
Qed.

Lemma next_rowid_fresh (t : list sqlrow) (r : sqlrow) :
  r ∈ t -> rowid r < next_rowid t.
Proof.
  intros (m & Hm & Hr)%max_rowid_bound. unfold next_rowid.
  rewrite Hm. simpl. lia.
Qed.

(** ** [instance_from_db], case by case *)

Lemma instance_from_db_cached (r0 : pyval) (n : pyint) (s : pystr)
    (e : pyint) (l : loc) (w : world) :
  all w !! dict_key r0 = Some l ->
  2000 <= int_value n -> ~ blank s -> int_value e ∈ employees w ->
  instance_from_db (r0, VInt n, VStr s, VInt e) w
  = (Ok l, with_heap (alter (store_fields n s e) l (heap w)) w).
Proof.
  intros Hl Hn Hs He. unfold instance_from_db.
  unfold bind at 1. unfold all_get, gets. rewrite Hl.
  change (year_setter l (VInt n);; summary_setter l (VStr s);;
          employee_id_setter l (VInt e);; ret l)
    with (bind (year_setter l (VInt n))
            (fun _ => bind (summary_setter l (VStr s))
               (fun _ => bind (employee_id_setter l (VInt e))
                  (fun _ => ret l)))).
  unfold bind.
  rewrite year_setter_accepts by done.
  rewrite summary_setter_accepts by done.
  rewrite employee_id_setter_accepts by done.
  unfold ret, with_heap. simpl. do 2 f_equal.
  by rewrite !list_alter_alter_eq.
Qed.

Lemma instance_from_db_uncached (r0 : pyval) (n : pyint) (s : pystr)
    (e : pyint) (w : world) :
  all w !! dict_key r0 = None ->
  2000 <= int_value n -> ~ blank s -> int_value e ∈ employees w ->
  instance_from_db (r0, VInt n, VStr s, VInt e) w
  = (Ok (length (heap w)),
     with_all (<[dict_key r0 := length (heap w)]> (all w))
       (with_heap
          (heap w ++ [Instance (Some r0) (Some n) (Some s) (Some e)]) w)).
Proof.
  intros Hl Hn Hs He. unfold instance_from_db.
  unfold bind at 1. unfold all_get, gets. rewrite Hl.
  unfold bind at 1. rewrite Review_accepts by done.
  unfold bind, set_id, get_id, setattr, getattr, all_setitem, modify, ret.
  simpl. rewrite alter_new_instance, lookup_new_instance. simpl.
  done.
Qed.

Lemma seq3_then {A : Type} (a b c : M unit) (k : M A) (w : world) :
  (a ;; b ;; c ;; k) w = ((a ;; b ;; c) ;; k) w.
Proof.
  unfold bind. destruct (a w) as [[[]|x] w1]; [| done].
  destruct (b w1) as [[[]|x] w2]; [| done].
  by destruct (c w2) as [[[]|x] w3].
Qed.

(** A row that fails validation is never turned into an instance: the
    fetch raises, and neither the cache nor the table changes. *)
Lemma instance_from_db_invalid (r0 r1 r2 r3 : pyval) (w : world) :
  ~ valid_fields r1 r2 r3 w ->
  exists m w',
    instance_from_db (r0, r1, r2, r3) w = (Raise (ValueError m), w')
    /\ all w' = all w /\ reviews w' = reviews w
    /\ lastrowid w' = lastrowid w /\ employees w' = employees w.
Proof.
  intros Hv. unfold instance_from_db.
  unfold bind at 1. unfold all_get, gets.
  destruct (all w !! dict_key r0) as [l|].
  - rewrite seq3_then. unfold bind at 1.
    match goal with
    | |- context [bind ?a ?k w] => destruct (bind a k w) as [r1' w1] eqn:H
    end.
    apply setters_inv in H
      as [(n & sm & en & _ & _ & _ & Hv' & _)|(_ & [m ->] & [f ->])];
      [done |].
    by exists m; eexists.
  - unfold bind at 1.
    destruct (Review r1 r2 r3 VNone w) as [r1' w1] eqn:H.
    apply Review_inv in H
      as [(n & sm & en & _ & _ & _ & Hv' & _)
         |(_ & [m ->] & Ha & Ht & Hl & He & _)];
      [done |].
    by exists m; eexists.
Qed.

(** A row every setter accepts is turned into the one instance cached
    under its id: the cached one, updated in place, or else a new one,
    cached on the spot.  Fetching the row again changes nothing. *)
Lemma instance_from_db_valid (r0 r1 r2 r3 : pyval) (w : world) :
  valid_fields r1 r2 r3 w ->
  exists l w',
    instance_from_db (r0, r1, r2, r3) w = (Ok l, w')
    /\ all w' !! dict_key r0 = Some l
    /\ (forall l0, all w !! dict_key r0 = Some l0 ->
          l0 = l /\ all w' = all w /\ length (heap w') = length (heap w))
    /\ (all w !! dict_key r0 = None ->
          l = length (heap w) /\ all w' = <[dict_key r0 := l]> (all w)
          /\ length (heap w') = S (length (heap w)))
    /\ reviews w' = reviews w
    /\ lastrowid w' = lastrowid w /\ employees w' = employees w
    /\ instance_from_db (r0, r1, r2, r3) w' = (Ok l, w').
Proof.
  intros (Hy & Hs & He).
  destruct r1 as [|n|]; try done. destruct r2 as [| |s]; try done.
  destruct r3 as [|e|]; try done. simpl in Hy, Hs, He.
  destruct (all w !! dict_key r0) as [l|] eqn:Hl.
  - exists l. eexists. split; [by apply instance_from_db_cached |].
    split; [done |]. split.
    { intros ? [= <-]. repeat split. simpl. by rewrite length_alter. }
    split; [done |].
    do 3 (split; [done |]).
    rewrite (instance_from_db_cached r0 n s e l) by done.
    unfold with_heap. simpl. do 2 f_equal.
    rewrite list_alter_alter_eq. by apply list_alter_ext.
  - eexists. eexists. split; [by apply instance_from_db_uncached |].
    cbn [all with_all with_heap]. rewrite lookup_insert_eq.
    split; [done |]. split; [done |]. split.
    { intros _. repeat split. simpl. rewrite length_app. simpl. lia. }
    do 3 (split; [done |]).
    rewrite (instance_from_db_cached r0 n s e (length (heap w)));
      simpl; try done; [| by rewrite lookup_insert_eq].
    unfold with_heap, with_all. simpl. do 2 f_equal.
    by rewrite alter_new_instance.
Qed.

(** ** Row ids and parameters *)

Lemma int64_wrap_range (z : Z) : int64 (int64_wrap z).
Proof.
  unfold int64, int64_wrap.
  pose proof (Z.mod_pos_bound (z + 2 ^ 63) (2 ^ 64)). lia.
Qed.

Lemma int64_wrap_id (z : Z) : int64 z -> int64_wrap z = z.
Proof.
  unfold int64, int64_wrap. intros H.
  rewrite Z.mod_small; lia.
Qed.

Lemma rowid_int64 (r : sqlrow) : int64 (rowid r).
Proof. apply int64_wrap_range. Qed.

Lemma rowid_SqlRow (k : Z) (y s e : sqlval) :
  int64 k -> rowid (SqlRow k y s e) = k.
Proof. apply int64_wrap_id. Qed.

Lemma adapt_storable (v : pyval) (w : world) :
  storable v -> adapt v w = (Ok (sql_bind v), w).
Proof. unfold storable, adapt. by destruct (refusal v). Qed.

Lemma adapt_refused (v : pyval) (e : exn) (w : world) :
  refusal v = Some e -> adapt v w = (Raise e, w).
Proof. unfold adapt. by intros ->. Qed.

Lemma storable_int (n : pyint) : storable (VInt n) <-> int64 (int_value n).
Proof. unfold storable, refusal. by case_decide. Qed.

Lemma storable_rowid (r : sqlrow) : storable (VInt (PyLong (rowid r))).
Proof. apply storable_int, rowid_int64. Qed.

Lemma not_storable (v : pyval) : ~ storable v -> exists e, refusal v = Some e.
Proof. unfold storable. destruct (refusal v) as [e|]; [by exists e | done]. Qed.

(** ** The cursor after a statement *)

Lemma cursor_used_fields (w : world) :
  heap (cursor_used w) = heap w /\ all (cursor_used w) = all w
  /\ reviews (cursor_used w) = reviews w
  /\ employees (cursor_used w) = employees w
  /\ rowid_draws (cursor_used w) = rowid_draws w.
Proof. unfold cursor_used. by destruct (lastrowid w). Qed.

Lemma cursor_used_lastrowid (w : world) : lastrowid (cursor_used w) <> VNone.
Proof. unfold cursor_used. by destruct (lastrowid w) eqn:H; simpl; rewrite ?H. Qed.

Lemma cursor_used_again (w : world) :
  lastrowid w <> VNone -> cursor_used w = w.
Proof. unfold cursor_used. by destruct (lastrowid w). Qed.

Lemma valid_fields_employees (y s e : pyval) (w w' : world) :
  employees w' = employees w ->
  valid_fields y s e w' <-> valid_fields y s e w.
Proof.
  intros H. unfold valid_fields, valid_employee_id.
  destruct e; by rewrite ?H.
Qed.

Lemma valid_fields_cursor_used (y s e : pyval) (w : world) :
  valid_fields y s e (cursor_used w) <-> valid_fields y s e w.
Proof. apply valid_fields_employees, cursor_used_fields. Qed.

Lemma getattr_Some {A : Type} (field : instance -> option A) (name : string)
    (self : loc) (o : instance) (a : A) (w : world) :
  heap w !! self = Some o -> field o = Some a ->
  getattr field name self w = (Ok a, w).
Proof. intros Ho Ha. unfold getattr. by rewrite Ho; simpl; rewrite Ha. Qed.

(** ** Fetching by id *)

Section Queries.

Variable integer_of_text : pystr -> option Z.

Lemma find_by_id_rows (id : pyval) (w : world) :
  storable id ->
  find_by_id integer_of_text id w
  = match filter (fun r => id_equals integer_of_text (sql_bind id) r)
            (reviews w) with
    | r :: _ =>
        match instance_from_db (fetch_row r) (cursor_used w) with
        | (Ok l, w') => (Ok (Some l), w')
        | (Raise x, w') => (Raise x, w')
        end
    | [] => (Ok None, cursor_used w)
    end.
Proof.
  intros Hid. unfold find_by_id. unfold bind at 1.
  rewrite adapt_storable by done.
  unfold execute_select_by_id, bind, ret.
  destruct (filter _ (reviews w)) as [|r t]; [done |].
  simpl.
  by destruct (instance_from_db (fetch_row r) (cursor_used w)) as [[l|x] w'].
Qed.

Lemma find_by_id_refused (id : pyval) (e : exn) (w : world) :
  refusal id = Some e -> find_by_id integer_of_text id w = (Raise e, w).
Proof.
  intros H. unfold find_by_id. unfold bind at 1.
  by rewrite (adapt_refused _ e).
Qed.


Lemma select_none (N : Z) (t : list sqlrow) :
  (forall r, r ∈ t -> rowid r <> N) ->
  filter (fun r => id_equals integer_of_text (SInteger N) r) t = [].
Proof.
  induction t as [|r t IH]; intros H; [done |].
  rewrite filter_cons_False.
  - apply IH. intros r' Hr'. apply H. by right.
  - simpl. intros Hr%Is_true_true%Z.eqb_eq. by apply (H r); [left |].
Qed.

Lemma select_unique (r : sqlrow) (t : list sqlrow) :
  NoDup (rowid <$> t) -> r ∈ t ->
  filter (fun r' => id_equals integer_of_text (SInteger (rowid r)) r') t
  = [r].
Proof.
  induction t as [|r' t IH]; [by intros _ ?%not_elem_of_nil |].
  rewrite fmap_cons. intros [Hr' Ht]%NoDup_cons [->|Hr]%elem_of_cons.
  - rewrite filter_cons_True by (simpl; by apply Is_true_true, Z.eqb_eq).
    rewrite select_none; [done |].
    intros r Hr Heq. apply Hr'. rewrite <- Heq.
    by apply list_elem_of_fmap_2.
  - rewrite filter_cons_False; [by apply IH |].
    simpl. intros Heq%Is_true_true%Z.eqb_eq. apply Hr'. rewrite Heq.
    by apply list_elem_of_fmap_2.
Qed.

(** [find_by_id] on the id of a stored row. *)
Lemma find_by_id_row (r : sqlrow) (w : world) :
  r ∈ reviews w -> NoDup (rowid <$> reviews w) ->
  find_by_id integer_of_text (VInt (PyLong (rowid r))) w
  = match instance_from_db (fetch_row r) (cursor_used w) with
    | (Ok l, w') => (Ok (Some l), w')
    | (Raise x, w') => (Raise x, w')
    end.
Proof.
  intros Hr Hkey. rewrite find_by_id_rows by apply storable_rowid.
  cbn [sql_bind int_value]. by rewrite select_unique.
Qed.

(** C1. Let the table hold a row of id [N].  If the row passes validation,
    [find_by_id(N)] returns an instance.  Whenever [find_by_id(N)] has
    returned an instance, a second call returns that same instance and
    leaves the store as it is; the instance is the one cached under [N].
    When an instance was cached under [N] before the first call, it is that
    one, the cache is as before, and the heap differs only in that its
    year, summary and employee id have been assigned the stored values,
    in place.  When none was cached, the instance is a new one, added to
    the heap with the id [N] and the stored values and cached under [N] by
    the call.  So fetching the row again never yields a second instance for
    its id. *)
Theorem find_by_id_identity (N : Z) (r : sqlrow) (w : world) :
  r ∈ reviews w -> rowid r = N -> NoDup (rowid <$> reviews w) ->
  (valid_row r w ->
     exists l w1,
       find_by_id integer_of_text (VInt (PyLong N)) w = (Ok (Some l), w1))
  /\ (forall l w1,
        find_by_id integer_of_text (VInt (PyLong N)) w = (Ok (Some l), w1) ->
        find_by_id integer_of_text (VInt (PyLong N)) w1 = (Ok (Some l), w1)
        /\ all w1 !! VInt (PyLong N) = Some l
        /\ (forall l0, all w !! VInt (PyLong N) = Some l0 ->
              l0 = l /\ all w1 = all w
              /\ length (heap w1) = length (heap w))
        /\ (all w !! VInt (PyLong N) = None ->
              l = length (heap w)
              /\ all w1 = <[VInt (PyLong N) := l]> (all w)
              /\ length (heap w1) = S (length (heap w)))
        /\ reviews w1 = reviews w
        /\ exists n s e,
             sql_fetch (c_year r) = VInt n
             /\ sql_fetch (c_summary r) = VStr s
             /\ sql_fetch (c_employee_id r) = VInt e
             /\ (forall l0, all w !! VInt (PyLong N) = Some l0 ->
                   heap w1 = alter (store_fields n s e) l (heap w))
             /\ (all w !! VInt (PyLong N) = None ->
                   heap w1
                   = heap w ++ [Instance (Some (VInt (PyLong N))) (Some n)
                                  (Some s) (Some e)])).
Proof.
  intros Hr <- Hkey.
  destruct (cursor_used_fields w) as (Hh & Ha & Ht & He & _).
  split.
  { intros Hv%valid_fields_cursor_used. rewrite find_by_id_row by done.
    destruct (instance_from_db_valid (VInt (PyLong (rowid r))) _ _ _ _ Hv)
      as (l & w1 & Hrun & _).
    exists l, w1. unfold fetch_row. by rewrite Hrun. }
  intros l w1. rewrite find_by_id_row by done. unfold fetch_row.
  destruct (decide (valid_fields (sql_fetch (c_year r))
              (sql_fetch (c_summary r)) (sql_fetch (c_employee_id r))
              (cursor_used w))) as [Hv|Hv].
  2:{ destruct (instance_from_db_invalid (VInt (PyLong (rowid r)))
                  _ _ _ _ Hv) as (m & w' & -> & _). done. }
  destruct (instance_from_db_valid (VInt (PyLong (rowid r))) _ _ _ _ Hv)
    as (l' & w' & Hrun & Hc & Hold & Hnew & Ht' & Hl' & _ & Hagain).
  rewrite Hrun. intros [= <- <-].
  cbn [dict_key int_value] in Hc, Hold, Hnew. rewrite Ha, Hh in Hold, Hnew.
  assert (Hused : cursor_used w' = w').
  { apply cursor_used_again. rewrite Hl'. apply cursor_used_lastrowid. }
  split.
  { rewrite find_by_id_row by (by rewrite Ht', Ht).
    unfold fetch_row. by rewrite Hused, Hagain. }
  split; [done |]. split; [done |]. split; [done |].
  split; [by rewrite Ht', Ht |].
  destruct Hv as (Hy & Hs & Hemp).
  destruct (sql_fetch (c_year r)) as [|n|]; try done.
  destruct (sql_fetch (c_summary r)) as [| |s]; try done.
  destruct (sql_fetch (c_employee_id r)) as [|e|]; try done.
  simpl in Hy, Hs, Hemp.
  exists n, s, e. do 3 (split; [done |]). split.
  - intros l0 Hl0.
    rewrite (instance_from_db_cached _ n s e l0) in Hrun
      by (by cbn [dict_key int_value]; rewrite ?Ha).
    injection Hrun as <- <-. cbn [heap with_heap]. by rewrite Hh.
  - intros Hnone.
    rewrite (instance_from_db_uncached _ n s e) in Hrun
      by (by cbn [dict_key int_value]; rewrite ?Ha).
    injection Hrun as <- <-. cbn [heap with_heap with_all]. by rewrite Hh.
Qed.

(** ** The row id of an INSERT *)

Lemma max_rowid_elem (t : list sqlrow) (m : Z) :
  max_rowid t = Some m -> exists r, r ∈ t /\ rowid r = m.
Proof.
  revert m. induction t as [|x t IH]; intros m; [done |].
  cbn [max_rowid foldr]. fold (max_rowid t).
  destruct (max_rowid t) as [m'|]; simpl; intros [= <-].
  - destruct (Z.max_spec (rowid x) m') as [[_ ->]|[_ ->]].
    + destruct (IH m' eq_refl) as (r & Hr & <-). exists r. split; [by right | done].
    + exists x. split; [left | done].
  - exists x. split; [left | done].
Qed.

Lemma candidate_range (d : Z) : 1 <= candidate d <= 2 ^ 62.
Proof.
  unfold candidate.
  change (Z.shiftr max_int64 1) with (Z.ones 62).
  rewrite Z.land_ones by lia.
  pose proof (Z.mod_pos_bound d (2 ^ 62)). lia.
Qed.

Lemma draw_rowid_spec (tries : nat) (used draws draws' : list Z) (k : Z) :
  draw_rowid tries used draws = (Some k, draws') ->
  (k ∉ used) /\ (1 <= k <= 2 ^ 62).
Proof.
  revert draws. induction tries as [|tries IH]; intros draws; [done |].
  cbn [draw_rowid]. case_decide; [by apply IH |].
  intros [= <- <-]. split; [done | apply candidate_range].
Qed.


Lemma new_rowid_spec (t : list sqlrow) (draws draws' : list Z) (k : Z) :
  new_rowid t draws = (Some k, draws') ->
  int64 k /\ forall r, r ∈ t -> rowid r <> k.
Proof.
  unfold new_rowid. case_decide as Hmax.
  - intros (Hk & Hr)%draw_rowid_spec. split; [unfold int64; lia |].
    intros r Hin <-. apply Hk. by apply list_elem_of_fmap_2.
  - intros [= <- <-]. split.
    + unfold next_rowid. destruct (max_rowid t) as [m|] eqn:Hm; simpl.
      * destruct (max_rowid_elem _ _ Hm) as (r & _ & <-).
        pose proof (rowid_int64 r) as Hr.
        assert (rowid r <> max_int64) by congruence.
        unfold int64, max_int64 in *. lia.
      * unfold int64. lia.
    + intros r Hr%next_rowid_fresh. lia.
Qed.

Lemma insert_row_elem (r x : sqlrow) (t : list sqlrow) :
  x ∈ insert_row r t <-> x = r \/ x ∈ t.
Proof.
  induction t as [|y t IH]; cbn [insert_row].
  - rewrite list_elem_of_singleton, elem_of_nil. tauto.
  - destruct (rowid r <? rowid y).
    + by rewrite elem_of_cons.
    + rewrite !elem_of_cons, IH. tauto.
Qed.



(** ** C6: save *)

Ltac read_fields Ho Hn Hs He :=
  unfold year, summary, employee_id;
  unfold bind at 1 2; rewrite (getattr_Some _ _ _ _ _ _ Ho Hn);
  unfold ret at 1; unfold bind at 1 2;
  rewrite (getattr_Some _ _ _ _ _ _ Ho Hs);
  unfold ret at 1; unfold bind at 1 2;
  rewrite (getattr_Some _ _ _ _ _ _ Ho He);
  unfold ret at 1.

Lemma save_result (self : loc) (o : instance) (n : pyint) (s : pystr)
    (e : pyint) (k : Z) (draws : list Z) (w : world) :
  heap w !! self = Some o ->
  _year o = Some n -> _summary o = Some s -> _employee_id o = Some e ->
  storable (VInt n) -> storable (VStr s) -> storable (VInt e) ->
  new_rowid (reviews w) (rowid_draws w) = (Some k, draws) ->
  save self w
  = (Ok tt,
     {| heap := alter (store_id (VInt (PyLong k))) self (heap w);
        all := <[VInt (PyLong k) := self]> (all w);
        reviews :=
          insert_row
            (SqlRow k (SInteger (int_value n)) (SText s)
               (SInteger (int_value e))) (reviews w);
        lastrowid := VInt (PyLong k);
        employees := employees w;
        rowid_draws := draws |}).
Proof.
  intros Ho Hn Hs He Sn Ss Se Hk. unfold save. read_fields Ho Hn Hs He.
  unfold bind at 1. rewrite adapt_storable by done.
  unfold bind at 1. rewrite adapt_storable by done.
  unfold bind at 1. rewrite adapt_storable by done.
  unfold bind at 1. unfold execute_insert. rewrite Hk.
  unfold bind, commit, set_id, get_id, setattr, getattr,
    all_setitem, gets, modify, ret.
  cbn [heap all reviews lastrowid employees rowid_draws with_heap with_all
       with_reviews with_lastrowid with_rowid_draws sql_bind].
  rewrite list_lookup_alter_eq, Ho. done.
Qed.

(** A parameter the cursor cannot bind: nothing is executed. *)
Lemma save_refused (self : loc) (o : instance) (n : pyint) (s : pystr)
    (e : pyint) (w : world) :
  heap w !! self = Some o ->
  _year o = Some n -> _summary o = Some s -> _employee_id o = Some e ->
  ~ (storable (VInt n) /\ storable (VStr s) /\ storable (VInt e)) ->
  exists x, save self w = (Raise x, w)
            /\ (refusal (VInt n) = Some x \/ refusal (VStr s) = Some x
                \/ refusal (VInt e) = Some x).
Proof.
  intros Ho Hn Hs He Hbad. unfold save. read_fields Ho Hn Hs He.
  destruct (decide (storable (VInt n))) as [Sn|[x Hx]%not_storable].
  2:{ exists x. unfold bind at 1. rewrite (adapt_refused _ x) by done. auto. }
  unfold bind at 1. rewrite adapt_storable by done.
  destruct (decide (storable (VStr s))) as [Ss|[x Hx]%not_storable].
  2:{ exists x. unfold bind at 1. rewrite (adapt_refused _ x) by done. auto. }
  unfold bind at 1. rewrite adapt_storable by done.
  destruct (decide (storable (VInt e))) as [Se|[x Hx]%not_storable];
    [by destruct Hbad |].
  exists x. unfold bind at 1. rewrite (adapt_refused _ x) by done. auto.
Qed.

(** No row id left: the INSERT fails. *)
Lemma save_full (self : loc) (o : instance) (n : pyint) (s : pystr)
    (e : pyint) (draws : list Z) (w : world) :
  heap w !! self = Some o ->
  _year o = Some n -> _summary o = Some s -> _employee_id o = Some e ->
  storable (VInt n) -> storable (VStr s) -> storable (VInt e) ->
  new_rowid (reviews w) (rowid_draws w) = (None, draws) ->
  save self w = (Raise database_full, with_rowid_draws draws w).
Proof.
  intros Ho Hn Hs He Sn Ss Se Hk. unfold save. read_fields Ho Hn Hs He.
  unfold bind at 1. rewrite adapt_storable by done.
  unfold bind at 1. rewrite adapt_storable by done.
  unfold bind at 1. rewrite adapt_storable by done.
  unfold bind at 1. unfold execute_insert. by rewrite Hk.
Qed.




Lemma select_null (t : list sqlrow) :
  filter (fun r => negb (id_equals integer_of_text SNull r)) t = t.
Proof.
  induction t as [|r t IH]; [done |].
  rewrite filter_cons_True by done. by rewrite IH.
Qed.

(** ** C2: create, then find_by_id *)


(** ** C7: update *)

Lemma update_result (self : loc) (o : instance) (k : pyval) (n : pyint)
    (s : pystr) (e : pyint) (w : world) :
  heap w !! self = Some o -> id o = Some k ->
  _year o = Some n -> _summary o = Some s -> _employee_id o = Some e ->
  storable (VInt n) -> storable (VStr s) -> storable (VInt e) ->
  storable k ->
  update integer_of_text self w
  = (Ok tt,
     cursor_used
       (with_reviews
          ((fun r => if id_equals integer_of_text (sql_bind k) r
                     then SqlRow (rowid r) (SInteger (int_value n)) (SText s)
                            (SInteger (int_value e))
                     else r) <$> reviews w) w)).
Proof.
  intros Ho Hk Hn Hs He Sn Ss Se Sk. unfold update, get_id.
  read_fields Ho Hn Hs He.
  unfold bind at 1. rewrite (getattr_Some _ _ _ _ _ _ Ho Hk).
  unfold bind at 1. rewrite adapt_storable by done.
  unfold bind at 1. rewrite adapt_storable by done.
  unfold bind at 1. rewrite adapt_storable by done.
  unfold bind at 1. rewrite adapt_storable by done.
  done.
Qed.

(** A parameter the cursor cannot bind: no row is written. *)
Lemma update_refused (self : loc) (o : instance) (k : pyval) (n : pyint)
    (s : pystr) (e : pyint) (w : world) :
  heap w !! self = Some o -> id o = Some k ->
  _year o = Some n -> _summary o = Some s -> _employee_id o = Some e ->
  ~ (storable (VInt n) /\ storable (VStr s) /\ storable (VInt e)
     /\ storable k) ->
  exists x, update integer_of_text self w = (Raise x, w)
            /\ (refusal (VInt n) = Some x \/ refusal (VStr s) = Some x
                \/ refusal (VInt e) = Some x \/ refusal k = Some x).
Proof.
  intros Ho Hk Hn Hs He Hbad. unfold update, get_id.
  read_fields Ho Hn Hs He.
  unfold bind at 1. rewrite (getattr_Some _ _ _ _ _ _ Ho Hk).
  destruct (decide (storable (VInt n))) as [Sn|[x Hx]%not_storable].
  2:{ exists x. unfold bind at 1. rewrite (adapt_refused _ x) by done. auto. }
  unfold bind at 1. rewrite adapt_storable by done.
  destruct (decide (storable (VStr s))) as [Ss|[x Hx]%not_storable].
  2:{ exists x. unfold bind at 1. rewrite (adapt_refused _ x) by done. auto. }
  unfold bind at 1. rewrite adapt_storable by done.
  destruct (decide (storable (VInt e))) as [Se|[x Hx]%not_storable].
  2:{ exists x. unfold bind at 1. rewrite (adapt_refused _ x) by done.
      auto. }
  unfold bind at 1. rewrite adapt_storable by done.
  destruct (decide (storable k)) as [Sk|[x Hx]%not_storable];
    [by destruct Hbad |].
  exists x. unfold bind at 1. rewrite (adapt_refused _ x) by done. auto 6.
Qed.





(** ** C8 and C10: delete *)

Lemma delete_cached (self : loc) (o : instance) (k : pyval) (c : loc)
    (w : world) :
  heap w !! self = Some o -> id o = Some k -> storable k ->
  all w !! dict_key k = Some c ->
  delete integer_of_text self w
  = (Ok tt,
     {| heap := alter (store_id VNone) self (heap w);
        all := base.delete (dict_key k) (all w);
        reviews := filter
          (fun r => negb (id_equals integer_of_text (sql_bind k) r))
          (reviews w);
        lastrowid := lastrowid (cursor_used w);
        employees := employees w;
        rowid_draws := rowid_draws w |}).
Proof.
  intros Ho Hk Sk Hc. unfold delete, get_id.
  unfold bind at 1. rewrite (getattr_Some _ _ _ _ _ _ Ho Hk).
  unfold bind at 1. rewrite adapt_storable by done.
  unfold bind at 1 2. unfold execute_delete, commit, modify, ret.
  unfold bind at 1. unfold getattr at 1.
  unfold cursor_used. cbn [lastrowid with_reviews].
  destruct (lastrowid w) eqn:Hlr;
    cbn [heap all with_reviews with_lastrowid];
    rewrite Ho; simpl; rewrite Hk;
    unfold bind, all_delitem;
    cbn [all with_reviews with_lastrowid]; rewrite Hc; done.
Qed.

Lemma delete_uncached (self : loc) (o : instance) (k : pyval) (w : world) :
  heap w !! self = Some o -> id o = Some k -> storable k ->
  all w !! dict_key k = None ->
  delete integer_of_text self w
  = (Raise (KeyError k),
     cursor_used
       (with_reviews
          (filter (fun r => negb (id_equals integer_of_text (sql_bind k) r))
             (reviews w)) w)).
Proof.
  intros Ho Hk Sk Hc. unfold delete, get_id.
  unfold bind at 1. rewrite (getattr_Some _ _ _ _ _ _ Ho Hk).
  unfold bind at 1. rewrite adapt_storable by done.
  unfold bind at 1 2. unfold execute_delete, commit, modify, ret.
  unfold bind at 1. unfold getattr at 1.
  destruct (cursor_used_fields
              (with_reviews
                 (filter (fun r => negb (id_equals integer_of_text
                                           (sql_bind k) r))
                    (reviews w)) w)) as (-> & Ha & _).
  cbn [heap all with_reviews] in *.
  rewrite Ho. simpl. rewrite Hk.
  unfold bind, all_delitem. rewrite Ha, Hc. done.
Qed.

(** An id the cursor cannot bind: no row is deleted. *)
Lemma delete_refused (self : loc) (o : instance) (k : pyval) (x : exn)
    (w : world) :
  heap w !! self = Some o -> id o = Some k -> refusal k = Some x ->
  delete integer_of_text self w = (Raise x, w).
Proof.
  intros Ho Hk Hx. unfold delete, get_id.
  unfold bind at 1. rewrite (getattr_Some _ _ _ _ _ _ Ho Hk).
  unfold bind at 1. by rewrite (adapt_refused _ x).
Qed.

(** C8. For an instance whose [id] is the row id [N], cached under [N],
    [delete] removes the rows of id [N] and only them, removes the entry
    of [N] from [Review.all] and only it, and sets the instance's [id] to
    [None]; [find_by_id(N)] then returns [None].  A row id is a signed
    64-bit integer: on an [id] that is not, which no row has, the cursor
    raises [OverflowError] and [delete] changes nothing. *)
Theorem delete_removes_row_and_entry (self : loc) (o : instance) (N : Z)
    (c : loc) (w : world) :
  heap w !! self = Some o -> id o = Some (VInt (PyLong N)) ->
  all w !! VInt (PyLong N) = Some c ->
  (int64 N ->
   exists w',
     delete integer_of_text self w = (Ok tt, w')
     /\ (forall r, r ∈ reviews w' <-> r ∈ reviews w /\ rowid r <> N)
     /\ all w' !! VInt (PyLong N) = None
     /\ (forall k, k <> VInt (PyLong N) -> all w' !! k = all w !! k)
     /\ get_id self w' = (Ok VNone, w')
     /\ find_by_id integer_of_text (VInt (PyLong N)) w' = (Ok None, w'))
  /\ (~ int64 N ->
      delete integer_of_text self w = (Raise overflow_error, w)
      /\ forall r, r ∈ reviews w -> rowid r <> N).
Proof.
  intros Ho Hk Hc. split.
  - intros HN.
    assert (SN : storable (VInt (PyLong N))) by (by apply storable_int).
    eexists.
    split; [by eapply delete_cached |].
    cbn [dict_key sql_bind int_value reviews all heap].
    assert (Hrows : forall r,
      r ∈ filter (fun r => negb (id_equals integer_of_text (SInteger N) r))
            (reviews w)
      <-> r ∈ reviews w /\ rowid r <> N).
    { intros r. rewrite list_elem_of_filter. simpl.
      rewrite negb_True, Is_true_true, Z.eqb_eq. tauto. }
    split; [exact Hrows |].
    split; [by rewrite lookup_delete_eq |].
    split; [by intros k Hne; rewrite lookup_delete_ne |].
    split.
    { eapply getattr_Some.
      - cbn [heap]. by rewrite list_lookup_alter_eq, Ho.
      - done. }
    rewrite find_by_id_rows by done. cbn [sql_bind int_value reviews].
    rewrite select_none by (by intros r [_ Hr]%Hrows).
    rewrite cursor_used_again; [done |].
    cbn [lastrowid]. apply cursor_used_lastrowid.
  - intros HN. split.
    + eapply delete_refused; [done.. |].
      unfold refusal. cbn [int_value]. by case_decide.
    + intros r _ <-. apply HN, rowid_int64.
Qed.

(** C10. For an instance whose [id] is [None], with no [None] key in
    [Review.all], [delete] raises [KeyError]; the DELETE it ran before
    matched no row, so the table is unchanged, and so are the cache and
    the instance, whose [id] is still [None].  The store after the call is
    the one before it, but for [CURSOR.lastrowid], which is 0 and no longer
    [None] when the cursor had run no statement. *)
Theorem delete_transient_raises (self : loc) (o : instance) (w : world) :
  heap w !! self = Some o -> id o = Some VNone ->
  all w !! VNone = None ->
  execute_delete integer_of_text (sql_bind VNone) w = (Ok tt, cursor_used w)
  /\ delete integer_of_text self w = (Raise (KeyError VNone), cursor_used w)
  /\ get_id self w = (Ok VNone, w)
  /\ get_id self (cursor_used w) = (Ok VNone, cursor_used w)
  /\ reviews (cursor_used w) = reviews w
  /\ all (cursor_used w) = all w
  /\ heap (cursor_used w) = heap w
  /\ employees (cursor_used w) = employees w
  /\ (lastrowid w <> VNone -> cursor_used w = w).
Proof.
  intros Ho Hk Hc.
  assert (Hdel : with_reviews
            (filter (fun r => negb (id_equals integer_of_text SNull r))
               (reviews w)) w = w).
  { rewrite select_null. by destruct w. }
  destruct (cursor_used_fields w) as (Hh & Ha & Hr & He & _).
  split_and!; try done.
  - unfold execute_delete, modify. cbn [sql_bind]. by rewrite Hdel.
  - rewrite (delete_uncached self o VNone) by done.
    cbn [sql_bind]. by rewrite Hdel.
  - by eapply getattr_Some.
  - eapply getattr_Some; [by rewrite Hh | done].
  - apply cursor_used_again.
Qed.

(** ** C9: a fetch validates the stored row *)

Lemma for_each_invalid (rows : list (pyval * pyval * pyval * pyval))
    (w : world) :
  (exists r0 r1 r2 r3,
      (r0, r1, r2, r3) ∈ rows /\ ~ valid_fields r1 r2 r3 w) ->
  exists m w',
    for_each instance_from_db rows w = (Raise (ValueError m), w')
    /\ reviews w' = reviews w /\ employees w' = employees w.
Proof.
  revert w. induction rows as [|[[[a0 a1] a2] a3] rows IH];
    intros w (r0 & r1 & r2 & r3 & Hin & Hbad).
  { by apply not_elem_of_nil in Hin. }
  cbn [for_each]. unfold bind at 1.
  destruct (decide (valid_fields a1 a2 a3 w)) as [Hv|Hv].
  - destruct (instance_from_db_valid a0 _ _ _ _ Hv)
      as (l & w1 & -> & _ & _ & _ & Ht & _ & He & _).
    apply elem_of_cons in Hin as [[= -> -> -> ->]|Hin]; [done |].
    destruct (IH w1) as (m & w' & Hrun & Ht' & He').
    { exists r0, r1, r2, r3. split; [done |].
      by rewrite valid_fields_employees. }
    exists m, w'. unfold bind at 1. rewrite Hrun.
    repeat split; congruence.
  - destruct (instance_from_db_invalid a0 _ _ _ _ Hv)
      as (m & w' & -> & _ & Ht & _ & He).
    by exists m, w'.
Qed.

(** C9. A fetch passes the stored year, summary and employee id through
    the setters.  When a row of the table is one they reject, because a
    value breaks its invariant or because its employee id resolves to no
    Employee on the store of the fetch, [find_by_id] on its id and
    [get_all] raise the validation error instead of returning, whether or
    not an instance is cached for the row; the table is unchanged. *)
Theorem fetch_revalidates (r : sqlrow) (w : world) :
  r ∈ reviews w -> NoDup (rowid <$> reviews w) -> ~ valid_row r w ->
  (exists m w',
     find_by_id integer_of_text (VInt (PyLong (rowid r))) w
     = (Raise (ValueError m), w')
     /\ reviews w' = reviews w /\ all w' = all w)
  /\ (exists m w',
        get_all w = (Raise (ValueError m), w') /\ reviews w' = reviews w).
Proof.
  intros Hr Hkey Hbad.
  destruct (cursor_used_fields w) as (_ & Ha & Ht & He & _).
  assert (Hbad' : ~ valid_row r (cursor_used w)).
  { unfold valid_row. by rewrite valid_fields_employees. }
  split.
  - rewrite find_by_id_row by done.
    destruct (instance_from_db_invalid (VInt (PyLong (rowid r))) _ _ _ _
                Hbad')
      as (m & w' & Hrun & Ha' & Ht' & _).
    exists m, w'. unfold fetch_row. rewrite Hrun.
    split; [done |]. split; congruence.
  - unfold get_all, execute_select. unfold bind.
    destruct (for_each_invalid (fetch_row <$> reviews w) (cursor_used w))
      as (m & w' & Hrun & Ht' & _).
    { exists (VInt (PyLong (rowid r))), (sql_fetch (c_year r)),
        (sql_fetch (c_summary r)), (sql_fetch (c_employee_id r)).
      split; [| done].
      by apply (list_elem_of_fmap_2 fetch_row). }
    exists m, w'. rewrite Hrun. split; [done | congruence].
Qed.

End Queries.

(** ** The queries on concrete stores *)

Ltac evaluate := apply (bool_decide_unpack _); vm_compute; exact I.

Lemma find_by_id_identity_witness :
  find_by_id decimal_of_text (VInt (PyLong 1)) unseen_world
  = (Ok (Some 0%nat), fetched_world)
  /\ find_by_id decimal_of_text (VInt (PyLong 1)) fetched_world
     = (Ok (Some 0%nat), fetched_world)
  /\ all fetched_world !! VInt (PyLong 1) = Some 0%nat
  /\ heap fetched_world
     = [Instance (Some (VInt (PyLong 1))) (Some (PyLong 2023))
          (Some (py "Good work")) (Some (PyLong 1))].
Proof.
  assert (Hin : SqlRow 1 (SInteger 2023) (SText (py "Good work")) (SInteger 1)
                ∈ reviews unseen_world) by left.
  assert (Hkey : NoDup (rowid <$> reviews unseen_world)) by evaluate.
  assert (H : find_by_id decimal_of_text (VInt (PyLong 1)) unseen_world
              = (Ok (Some 0%nat), fetched_world))
    by (vm_compute; reflexivity).
  assert (Hnew : all unseen_world !! VInt (PyLong 1) = None)
    by (vm_compute; reflexivity).
  split; [exact H |].
  destruct (proj2 (find_by_id_identity decimal_of_text 1 _ unseen_world
                     Hin eq_refl Hkey) _ _ H)
    as (H1 & H2 & _ & _ & _ & n & s & e & Hn & Hs & He & _ & Hheap).
  simpl in Hn, Hs, He.
  injection Hn as <-. injection Hs as <-. injection He as <-.
  split; [exact H1 |]. split; [exact H2 |]. exact (Hheap Hnew).
Defined.







Lemma delete_removes_row_and_entry_witness :
  exists w',
    delete decimal_of_text 0%nat sample_world = (Ok tt, w')
    /\ reviews w' = []
    /\ all w' !! VInt (PyLong 1) = None
    /\ get_id 0%nat w' = (Ok VNone, w')
    /\ find_by_id decimal_of_text (VInt (PyLong 1)) w' = (Ok None, w').
Proof.
  assert (HN : int64 1) by evaluate.
  destruct (proj1 (delete_removes_row_and_entry decimal_of_text 0%nat
                     sample_instance 1 0%nat sample_world
                     eq_refl eq_refl eq_refl) HN)
    as (w' & H1 & H2 & H3 & _ & H4 & H5).
  exists w'. repeat split; try done.
  destruct (reviews w') as [|r t] eqn:Hr; [done |].
  assert (Hin : r ∈ r :: t) by left.
  apply H2 in Hin as [[->|[]%not_elem_of_nil]%elem_of_cons Hne].
  done.
Defined.

Lemma fetch_revalidates_witness :
  (exists m w',
     find_by_id decimal_of_text (VInt (PyLong 2)) stale_world
     = (Raise (ValueError m), w') /\ reviews w' = reviews stale_world)
  /\ (exists m w',
        get_all stale_world = (Raise (ValueError m), w')
        /\ reviews w' = reviews stale_world).
Proof.
  assert (Hin : stale_row ∈ reviews stale_world) by (right; left).
  assert (Hkey : NoDup (rowid <$> reviews stale_world)) by evaluate.
  assert (Hbad : ~ valid_row stale_row stale_world) by evaluate.
  destruct (fetch_revalidates decimal_of_text stale_row stale_world
              Hin Hkey Hbad)
    as [(m & w' & H1 & H2 & _) (m' & w'' & H3 & H4)].
  split; [by exists m, w' | by exists m', w''].
Defined.

Lemma delete_transient_raises_witness :
  delete decimal_of_text 0%nat transient_world
  = (Raise (KeyError VNone), transient_world)
  /\ get_id 0%nat transient_world = (Ok VNone, transient_world).
Proof.
  destruct (delete_transient_raises decimal_of_text 0%nat
              transient_instance transient_world eq_refl eq_refl eq_refl)
    as (_ & H1 & H2 & _).
  by split.
Defined.

(** * Further properties of the operations *)

Section Lifecycle.

Variable integer_of_text : pystr -> option Z.

(** ** A lookup that finds no row *)

Lemma select_by_null (t : list sqlrow) :
  filter (fun r => id_equals integer_of_text SNull r) t = [].
Proof.
  induction t as [|r t IH]; [done |].
  rewrite filter_cons_False; [done |]. simpl. by intros [].
Qed.

(** X1. [find_by_id] on a signed 64-bit integer returns [None] exactly when
    no row has the id, and on the id [None] every time; the SELECT it ran
    leaves the table, the cache and the instances alone and
    [CURSOR.lastrowid] at 0 when the cursor had run no statement.  On an
    integer out of that range, which no row has, the cursor raises
    [OverflowError] and nothing is run. *)
Theorem find_by_id_none (N : Z) (w : world) :
  find_by_id integer_of_text VNone w = (Ok None, cursor_used w)
  /\ (int64 N ->
      forall w',
        find_by_id integer_of_text (VInt (PyLong N)) w = (Ok None, w')
        <-> w' = cursor_used w /\ forall r, r ∈ reviews w -> rowid r <> N)
  /\ (~ int64 N ->
      find_by_id integer_of_text (VInt (PyLong N)) w
      = (Raise overflow_error, w)
      /\ forall r, r ∈ reviews w -> rowid r <> N)
  /\ heap (cursor_used w) = heap w
  /\ all (cursor_used w) = all w
  /\ reviews (cursor_used w) = reviews w
  /\ (lastrowid w = VNone -> lastrowid (cursor_used w) = VInt (PyLong 0))
  /\ (lastrowid w <> VNone -> cursor_used w = w).
Proof.
  destruct (cursor_used_fields w) as (Hh & Ha & Ht & _).
  split_and!; try done.
  - rewrite find_by_id_rows by done. cbn [sql_bind].
    by rewrite select_by_null.
  - intros HN w'.
    rewrite find_by_id_rows by (by apply storable_int).
    cbn [sql_bind int_value]. split.
    + intros H.
      destruct (filter _ (reviews w)) as [|r' t] eqn:Hrows.
      * injection H as <-. split; [done |]. intros r Hr Heq.
        eapply (not_elem_of_nil r). rewrite <- Hrows.
        apply list_elem_of_filter. split; [| done].
        simpl. by apply Is_true_true, Z.eqb_eq.
      * by destruct (instance_from_db (fetch_row r') (cursor_used w))
          as [[l|x] w''].
    + intros [-> H]. by rewrite select_none.
  - intros HN. split.
    + apply find_by_id_refused. unfold refusal. cbn [int_value].
      by case_decide.
    + intros r _ <-. apply HN, rowid_int64.
  - unfold cursor_used. by intros ->.
  - apply cursor_used_again.
Qed.

(** ** Arguments the constructor rejects *)

(** X2. [create] validates before it inserts: with an argument a setter
    rejects it raises the validation error, and the table, the cache and
    every instance there was are as before. *)
Theorem create_rejects_invalid (y s e : pyval) (w : world) :
  ~ valid_fields y s e w ->
  exists m w',
    create y s e w = (Raise (ValueError m), w')
    /\ reviews w' = reviews w /\ all w' = all w
    /\ lastrowid w' = lastrowid w
    /\ forall l o, heap w !! l = Some o -> heap w' !! l = Some o.
Proof.
  intros Hv. unfold create. unfold bind at 1.
  destruct (Review y s e VNone w) as [r w1] eqn:H.
  apply Review_inv in H
    as [(n & sm & en & _ & _ & _ & Hv' & _)
       |(_ & [m ->] & Ha & Ht & Hl & _ & [o Hh])];
    [done |].
  exists m, w1. repeat split; try done.
  intros l o' Hl'. rewrite Hh. apply lookup_app_l_Some. done.
Qed.

(** ** An update that matches no row *)



(** ** A fetch into a cached instance *)

(** X4. A fetch of a valid row into the instance cached for it replaces the
    year, the summary and the employee id of the instance by the stored
    ones, whatever they were: an edit that was not saved by [update] is
    lost.  The [id] of the instance, the other instances, the cache and
    the table are as before. *)
Theorem find_by_id_discards_edits (r : sqlrow) (l : loc) (o : instance)
    (w : world) :
  r ∈ reviews w -> NoDup (rowid <$> reviews w) -> valid_row r w ->
  all w !! VInt (PyLong (rowid r)) = Some l -> heap w !! l = Some o ->
  exists w',
    find_by_id integer_of_text (VInt (PyLong (rowid r))) w
    = (Ok (Some l), w')
    /\ year l w' = (Ok (sql_fetch (c_year r)), w')
    /\ summary l w' = (Ok (sql_fetch (c_summary r)), w')
    /\ employee_id l w' = (Ok (sql_fetch (c_employee_id r)), w')
    /\ heap w' !! l ≫= id = id o
    /\ (forall l', l' <> l -> heap w' !! l' = heap w !! l')
    /\ all w' = all w /\ reviews w' = reviews w.
Proof.
  intros Hr Hkey (Hy & Hs & He) Hl Ho.
  rewrite find_by_id_row by done.
  destruct (cursor_used_fields w) as (Hh & Ha & Ht & Hem & _).
  rewrite <- Ha in Hl. rewrite <- Hh in Ho. rewrite <- Hh, <- Ha, <- Ht.
  unfold fetch_row.
  destruct (sql_fetch (c_year r)) as [|n|]; try done.
  destruct (sql_fetch (c_summary r)) as [| |s]; try done.
  destruct (sql_fetch (c_employee_id r)) as [|e|]; try done.
  simpl in Hy, Hs, He. rewrite <- Hem in He.
  rewrite (instance_from_db_cached _ n s e l) by done.
  eexists. split; [done |].
  unfold year, summary, employee_id, bind, ret, getattr.
  cbn [heap with_heap all reviews].
  rewrite list_lookup_alter_eq, Ho. simpl.
  repeat split; try done.
  intros l' Hl'. by rewrite list_lookup_alter_ne.
Qed.

Lemma instance_from_db_summary_rejected (r0 : pyval) (n : pyint)
    (r2 r3 : pyval) (l : loc) (w : world) :
  all w !! dict_key r0 = Some l -> 2000 <= int_value n ->
  (forall s, r2 = VStr s -> blank s) ->
  instance_from_db (r0, VInt n, r2, r3) w
  = (Raise summary_error, with_heap (alter (store_year n) l (heap w)) w).
Proof.
  intros Hl Hn Hs. unfold instance_from_db.
  unfold bind at 1. unfold all_get, gets. rewrite Hl.
  unfold bind. rewrite year_setter_accepts by done.
  by rewrite summary_setter_rejects.
Qed.

(** X5. The setters run in the order year, summary, employee id, each on the
    cached instance itself.  When the stored year is valid and the stored
    summary is not, the fetch raises the summary's error after the year of
    the cached instance has been replaced: the instance keeps its summary
    and its employee id and has the stored year. *)
Theorem failed_fetch_updates_year (r : sqlrow) (y : Z) (l : loc)
    (o : instance) (w : world) :
  r ∈ reviews w -> NoDup (rowid <$> reviews w) ->
  c_year r = SInteger y -> 2000 <= y ->
  ~ valid_summary (sql_fetch (c_summary r)) ->
  all w !! VInt (PyLong (rowid r)) = Some l -> heap w !! l = Some o ->
  exists w',
    find_by_id integer_of_text (VInt (PyLong (rowid r))) w
    = (Raise summary_error, w')
    /\ year l w' = (Ok (VInt (PyLong y)), w')
    /\ heap w' !! l ≫= _summary = _summary o
    /\ heap w' !! l ≫= _employee_id = _employee_id o
    /\ all w' = all w /\ reviews w' = reviews w.
Proof.
  intros Hr Hkey Hy Hy' Hs Hl Ho.
  rewrite find_by_id_row by done.
  destruct (cursor_used_fields w) as (Hh & Ha & Ht & _).
  rewrite <- Ha in Hl. rewrite <- Hh in Ho. rewrite <- Ha, <- Ht.
  unfold fetch_row.
  rewrite Hy. cbn [sql_fetch].
  rewrite (instance_from_db_summary_rejected _ _ _ _ l); try done.
  2:{ intros s Heq. rewrite Heq in Hs. simpl in Hs.
      by destruct (decide (blank s)). }
  eexists. split; [done |].
  unfold year, bind, ret, getattr. cbn [heap with_heap all reviews].
  rewrite list_lookup_alter_eq, Ho. done.
Qed.

(** ** A fetch of a row with no instance yet *)

(** X6. A fetch of a valid row that has no cached instance builds one: a new
    instance whose [id] is the id of the row and whose year, summary and
    employee id are the stored ones, cached under that id.  The instances
    there were are as before. *)
Theorem find_by_id_builds_from_row (r : sqlrow) (w : world) :
  r ∈ reviews w -> NoDup (rowid <$> reviews w) -> valid_row r w ->
  all w !! VInt (PyLong (rowid r)) = None ->
  exists l w',
    find_by_id integer_of_text (VInt (PyLong (rowid r))) w
    = (Ok (Some l), w')
    /\ heap w !! l = None
    /\ get_id l w' = (Ok (VInt (PyLong (rowid r))), w')
    /\ year l w' = (Ok (sql_fetch (c_year r)), w')
    /\ summary l w' = (Ok (sql_fetch (c_summary r)), w')
    /\ employee_id l w' = (Ok (sql_fetch (c_employee_id r)), w')
    /\ all w' !! VInt (PyLong (rowid r)) = Some l
    /\ (forall l' o, heap w !! l' = Some o -> heap w' !! l' = Some o)
    /\ reviews w' = reviews w.
Proof.
  intros Hr Hkey (Hy & Hs & He) Hl.
  rewrite find_by_id_row by done.
  destruct (cursor_used_fields w) as (Hh & Ha & Ht & Hem & _).
  rewrite <- Ha in Hl. rewrite <- Hh, <- Ht.
  unfold fetch_row.
  destruct (sql_fetch (c_year r)) as [|n|]; try done.
  destruct (sql_fetch (c_summary r)) as [| |s]; try done.
  destruct (sql_fetch (c_employee_id r)) as [|e|]; try done.
  simpl in Hy, Hs, He. rewrite <- Hem in He.
  rewrite (instance_from_db_uncached _ n s e) by done.
  exists (length (heap (cursor_used w))). eexists. split; [done |].
  unfold year, summary, employee_id, get_id, bind, ret, getattr.
  cbn [heap with_heap with_all all reviews dict_key int_value].
  rewrite lookup_new_instance, lookup_insert_eq. simpl.
  split; [by apply lookup_ge_None_2 |].
  do 5 (split; [done |]).
  split; [| done]. intros l' o Hl'. by apply lookup_app_l_Some.
Qed.

(** ** The cache under a fetch *)

Lemma instance_from_db_cache_grows (row : pyval * pyval * pyval * pyval)
    (w w' : world) (r : result loc) :
  instance_from_db row w = (r, w') ->
  (forall k l, all w !! k = Some l -> all w' !! k = Some l)
  /\ reviews w' = reviews w /\ employees w' = employees w.
Proof.
  destruct row as [[[r0 r1] r2] r3]. intros H.
  destruct (decide (valid_fields r1 r2 r3 w)) as [Hv|Hv].
  - destruct (instance_from_db_valid r0 _ _ _ _ Hv)
      as (l & w1 & Hrun & _ & Hold & Hnew & Ht & _ & He & _).
    rewrite Hrun in H. injection H as <- <-.
    split; [| done]. intros k l' Hk.
    destruct (all w !! dict_key r0) as [l0|] eqn:Hc.
    + destruct (Hold l0 eq_refl) as (_ & -> & _). done.
    + destruct (Hnew eq_refl) as (_ & -> & _).
      rewrite lookup_insert_ne; [done |]. by intros <-; congruence.
  - destruct (instance_from_db_invalid r0 _ _ _ _ Hv)
      as (m & w1 & Hrun & Ha & Ht & _ & He).
    rewrite Hrun in H. injection H as <- <-.
    split; [| done]. intros k l' Hk. by rewrite Ha.
Qed.

Lemma for_each_cache_grows (rows : list (pyval * pyval * pyval * pyval))
    (w w' : world) (r : result (list loc)) :
  for_each instance_from_db rows w = (r, w') ->
  (forall k l, all w !! k = Some l -> all w' !! k = Some l)
  /\ reviews w' = reviews w /\ employees w' = employees w.
Proof.
  revert w r w'. induction rows as [|row rows IH]; intros w r w'.
  { by intros [= <- <-]. }
  cbn [for_each]. unfold bind at 1.
  destruct (instance_from_db row w) as [[l|x] w1] eqn:H1;
    apply instance_from_db_cache_grows in H1 as (Ha1 & Ht1 & He1).
  - unfold bind at 1.
    destruct (for_each instance_from_db rows w1) as [[ls|x] w2] eqn:H2;
      apply IH in H2 as (Ha2 & Ht2 & He2);
      intros [= <- <-]; (split; [by auto | split; congruence]).
  - by intros [= <- <-].
Qed.

(** X7. Neither [find_by_id] nor [get_all], returning or raising, removes an
    entry of [Review.all] or binds a cached id to another instance. *)
Theorem fetch_never_rebinds (w : world) (k : pyval) (l : loc) :
  all w !! k = Some l ->
  (forall id r w',
     find_by_id integer_of_text id w = (r, w') -> all w' !! k = Some l)
  /\ (forall r w', get_all w = (r, w') -> all w' !! k = Some l).
Proof.
  intros Hk.
  destruct (cursor_used_fields w) as (_ & Ha & _).
  rewrite <- Ha in Hk. split.
  - intros id r w'.
    destruct (decide (storable id)) as [Sid|[x Hx]%not_storable].
    2:{ rewrite (find_by_id_refused _ _ x) by done.
        intros [= <- <-]. by rewrite <- Ha. }
    rewrite find_by_id_rows by done.
    destruct (filter _ (reviews w)) as [|row t]; [by intros [= <- <-] |].
    destruct (instance_from_db (fetch_row row) (cursor_used w))
      as [[l'|x] w1] eqn:H1;
      apply instance_from_db_cache_grows in H1 as (Ha' & _);
      intros [= <- <-]; by apply Ha'.
  - intros r w'. unfold get_all, execute_select, bind.
    intros H. apply for_each_cache_grows in H as (Ha' & _). by apply Ha'.
Qed.

(** ** [get_all] on valid rows *)

Lemma for_each_valid (rows : list (pyval * pyval * pyval * pyval))
    (w : world) :
  Forall (fun row => valid_fields row.1.1.2 row.1.2 row.2 w) rows ->
  exists ls w',
    for_each instance_from_db rows w = (Ok ls, w')
    /\ Forall2 (fun row l => all w' !! dict_key row.1.1.1 = Some l) rows ls
    /\ reviews w' = reviews w /\ employees w' = employees w.
Proof.
  revert w. induction rows as [|[[[r0 r1] r2] r3] rows IH]; intros w Hv.
  { exists [], w. by repeat split. }
  apply Forall_cons in Hv as [Hv Hvs]. cbn [fst snd] in Hv.
  destruct (instance_from_db_valid r0 _ _ _ _ Hv)
    as (l & w1 & Hrun & Hc & _ & _ & Ht & _ & He & _).
  destruct (IH w1) as (ls & w2 & Hrun2 & Hcs & Ht2 & He2).
  { eapply Forall_impl; [exact Hvs |]. intros row Hrow.
    by apply (valid_fields_employees _ _ _ w w1). }
  exists (l :: ls), w2. cbn [for_each]. unfold bind at 1. rewrite Hrun.
  unfold bind at 1. rewrite Hrun2. unfold ret.
  split; [done |]. split; [| split; congruence].
  constructor; [| done]. cbn [fst].
  apply for_each_cache_grows in Hrun2 as (Ha & _). by apply Ha.
Qed.

Lemma for_each_cached (rows : list (pyval * pyval * pyval * pyval))
    (ls : list loc) (w : world) :
  Forall (fun row => valid_fields row.1.1.2 row.1.2 row.2 w) rows ->
  Forall2 (fun row l => all w !! dict_key row.1.1.1 = Some l) rows ls ->
  exists w',
    for_each instance_from_db rows w = (Ok ls, w')
    /\ all w' = all w /\ length (heap w') = length (heap w)
    /\ reviews w' = reviews w /\ employees w' = employees w.
Proof.
  revert ls w. induction rows as [|[[[r0 r1] r2] r3] rows IH];
    intros ls w Hv Hc.
  { apply Forall2_nil_inv_l in Hc as ->. exists w. by repeat split. }
  apply Forall2_cons_inv_l in Hc as (l & ls' & Hk & Hc & ->).
  apply Forall_cons in Hv as [Hv Hvs]. cbn [fst snd] in Hv, Hk.
  destruct (instance_from_db_valid r0 _ _ _ _ Hv)
    as (l' & w1 & Hrun & _ & Hold & _ & Ht & _ & He & _).
  destruct (Hold _ Hk) as (<- & Ha & Hh).
  destruct (IH ls' w1) as (w2 & Hrun2 & Ha2 & Hh2 & Ht2 & He2).
  { eapply Forall_impl; [exact Hvs |]. intros row Hrow.
    by apply (valid_fields_employees _ _ _ w w1). }
  { eapply Forall2_impl; [exact Hc |]. intros row l'' Hrow. by rewrite Ha. }
  exists w2. cbn [for_each]. unfold bind at 1. rewrite Hrun.
  unfold bind at 1. rewrite Hrun2. unfold ret.
  repeat split; congruence.
Qed.

Lemma for_each_Ok_valid (rows : list (pyval * pyval * pyval * pyval))
    (ls : list loc) (w w' : world) :
  for_each instance_from_db rows w = (Ok ls, w') ->
  Forall (fun row => valid_fields row.1.1.2 row.1.2 row.2 w) rows.
Proof.
  intros H.
  destruct (decide (Forall
    (fun row => valid_fields row.1.1.2 row.1.2 row.2 w) rows))
    as [Hv|Hv]; [done |].
  apply not_Forall_Exists in Hv; [| apply _].
  apply Exists_exists in Hv as ([[[r0 r1] r2] r3] & Hin & Hbad).
  destruct (for_each_invalid rows w) as (m & w1 & Hrun & _).
  { by exists r0, r1, r2, r3. }
  congruence.
Qed.

Lemma fetched_rows_valid (w w0 : world) :
  employees w0 = employees w ->
  Forall (fun r => valid_row r w) (reviews w)
  <-> Forall (fun row => valid_fields row.1.1.2 row.1.2 row.2 w0)
        (fetch_row <$> reviews w).
Proof.
  intros He. rewrite Forall_fmap. apply Forall_proper; [| done].
  intros r. unfold valid_row, fetch_row, compose. cbn [fst snd].
  symmetry. by apply valid_fields_employees.
Qed.

(** X8. When every stored row passes validation, [get_all] returns one
    instance per row, in the order of the rows, each of them the instance
    cached under the id of its row; the table is unchanged.  It returns
    only then. *)
Theorem get_all_one_instance_per_row (w : world) :
  (Forall (fun r => valid_row r w) (reviews w) ->
   exists ls w',
     get_all w = (Ok ls, w')
     /\ length ls = length (reviews w)
     /\ Forall2 (fun r l => all w' !! VInt (PyLong (rowid r)) = Some l)
          (reviews w) ls
     /\ reviews w' = reviews w)
  /\ (forall ls w',
        get_all w = (Ok ls, w') ->
        Forall (fun r => valid_row r w) (reviews w)).
Proof.
  destruct (cursor_used_fields w) as (_ & _ & Ht0 & He0 & _).
  split.
  - intros Hv%(fetched_rows_valid w (cursor_used w)); [| done].
    destruct (for_each_valid _ _ Hv) as (ls & w' & Hrun & Hc & Ht & _).
    exists ls, w'. unfold get_all, execute_select, bind.
    split; [by rewrite Hrun |].
    apply Forall2_fmap_l in Hc.
    split; [by apply Forall2_length in Hc |].
    split; [done | congruence].
  - intros ls w'. unfold get_all, execute_select, bind.
    destruct (for_each instance_from_db (fetch_row <$> reviews w)
                (cursor_used w)) as [[ls'|x] w1] eqn:H; [| done].
    intros _. apply for_each_Ok_valid in H.
    by apply (fetched_rows_valid w (cursor_used w)).
Qed.

(** X9. A second [get_all] returns the very instances the first one returned,
    in the same order, creates no instance and leaves the cache as it
    is. *)
Theorem get_all_identity (w w1 : world) (ls : list loc) :
  get_all w = (Ok ls, w1) ->
  exists w2,
    get_all w1 = (Ok ls, w2)
    /\ all w2 = all w1 /\ length (heap w2) = length (heap w1)
    /\ reviews w2 = reviews w1.
Proof.
  unfold get_all, execute_select, bind.
  destruct (for_each instance_from_db (fetch_row <$> reviews w)
              (cursor_used w)) as [[ls0|x] w0] eqn:H; [| done].
  intros [= -> ->].
  pose proof (for_each_Ok_valid _ _ _ _ H) as Hv.
  destruct (for_each_valid _ _ Hv) as (ls' & w' & Hrun & Hc & Ht & He).
  rewrite Hrun in H. injection H as -> ->.
  destruct (cursor_used_fields w) as (_ & _ & Ht0 & _).
  destruct (cursor_used_fields w1) as (Hh1 & Ha1 & Ht1 & He1 & _).
  rewrite Ht, Ht0.
  destruct (for_each_cached (fetch_row <$> reviews w) ls (cursor_used w1))
    as (w2 & Hrun2 & Ha & Hh & Ht2 & _).
  { eapply Forall_impl; [exact Hv |]. intros row Hrow.
    apply (valid_fields_employees _ _ _ (cursor_used w) (cursor_used w1));
      [congruence | done]. }
  { eapply Forall2_impl; [exact Hc |]. intros row l' Hrow.
    by rewrite Ha1. }
  exists w2. rewrite Hrun2. repeat split; congruence.
Qed.

(** ** Operations in a row *)




(** X12. [delete] twice: the first call leaves the [id] at [None], so the
    second finds no cache entry to remove and raises [KeyError], changing
    nothing.  A row id is a signed 64-bit integer: on an [id] that is not,
    the first call raises [OverflowError] and changes nothing. *)
Theorem delete_again_raises (self : loc) (o : instance) (N : Z) (c : loc)
    (w : world) :
  heap w !! self = Some o -> id o = Some (VInt (PyLong N)) ->
  all w !! VInt (PyLong N) = Some c -> all w !! VNone = None ->
  (int64 N ->
   exists w1,
     delete integer_of_text self w = (Ok tt, w1)
     /\ delete integer_of_text self w1 = (Raise (KeyError VNone), w1))
  /\ (~ int64 N ->
      delete integer_of_text self w = (Raise overflow_error, w)).
Proof.
  intros Ho Hk Hc Hnone. split.
  - intros HN.
    assert (SN : storable (VInt (PyLong N))) by (by apply storable_int).
    eexists.
    split; [by eapply delete_cached |].
    erewrite (delete_uncached integer_of_text self _ VNone).
    + cbn [sql_bind reviews]. rewrite select_null.
      unfold with_reviews.
      cbn [heap all reviews lastrowid employees rowid_draws].
      rewrite cursor_used_again; [done |].
      cbn [lastrowid]. apply cursor_used_lastrowid.
    + cbn [heap]. by rewrite list_lookup_alter_eq, Ho.
    + done.
    + done.
    + cbn [all dict_key int_value]. by rewrite lookup_delete_ne.
  - intros HN. eapply delete_refused; [done.. |].
    unfold refusal. cbn [int_value]. by case_decide.
Qed.

(** ** The store stays well formed *)

Lemma store_ok_frame (w w' : world) :
  store_ok w -> reviews w' = reviews w -> all w' = all w ->
  (length (heap w) <= length (heap w'))%nat -> store_ok w'.
Proof.
  intros [Hkey Hc] Ht Ha Hh. split.
  - unfold primary_key. by rewrite Ht.
  - unfold cache_allocated, allocated in *. rewrite Ha.
    eapply map_Forall_impl; [exact Hc |]. simpl. intros _ l Hl. lia.
Qed.

Lemma store_ok_cursor_used (w : world) :
  store_ok w -> store_ok (cursor_used w).
Proof.
  intros H. destruct (cursor_used_fields w) as (Hh & Ha & Ht & _).
  eapply store_ok_frame; [exact H | done.. |]. by rewrite Hh.
Qed.

Lemma store_ok_setattr (f : instance -> instance) (self : loc) (w : world) :
  store_ok w -> store_ok (with_heap (alter f self (heap w)) w).
Proof.
  intros H. eapply store_ok_frame; [exact H | done..|].
  simpl. by rewrite length_alter.
Qed.

Lemma store_ok_setters (self : loc) (y s e : pyval) (w w' : world)
    (r : result unit) :
  (year_setter self y ;; summary_setter self s ;;
   employee_id_setter self e) w = (r, w') ->
  store_ok w -> store_ok w'.
Proof.
  intros H Hok.
  apply setters_inv in H
    as [(n & sm & en & _ & _ & _ & _ & _ & ->)|(_ & _ & [f ->])];
    by apply store_ok_setattr.
Qed.

Lemma store_ok_Review (y s e i : pyval) (w w' : world) (r : result loc) :
  Review y s e i w = (r, w') -> store_ok w ->
  store_ok w'
  /\ forall l, r = Ok l ->
       exists o, heap w' !! l = Some o /\ is_Some (_year o)
                 /\ is_Some (_summary o) /\ is_Some (_employee_id o).
Proof.
  intros H Hok.
  apply Review_inv in H
    as [(n & sm & en & _ & _ & _ & _ & -> & ->)
       |(_ & [m ->] & Ha & Ht & _ & _ & [o Hh])].
  - split.
    + eapply store_ok_frame; [exact Hok | done..|].
      simpl. rewrite length_app. lia.
    + intros l [= <-]. eexists. split; [apply lookup_new_instance |].
      by repeat split.
  - split; [| done].
    eapply store_ok_frame; [exact Hok | done..|].
    rewrite Hh, length_app. lia.
Qed.

Lemma store_ok_instance_from_db (row : pyval * pyval * pyval * pyval)
    (w w' : world) (r : result loc) :
  instance_from_db row w = (r, w') -> store_ok w -> store_ok w'.
Proof.
  destruct row as [[[r0 r1] r2] r3]. intros H Hok.
  destruct (decide (valid_fields r1 r2 r3 w)) as [Hv|Hv].
  - destruct (instance_from_db_valid r0 _ _ _ _ Hv)
      as (l & w1 & Hrun & _ & Hold & Hnew & Ht & _ & _ & _).
    rewrite Hrun in H. injection H as <- <-.
    destruct (all w !! dict_key r0) as [l0|] eqn:Hc.
    + destruct (Hold l0 eq_refl) as (_ & Ha & Hh).
      eapply store_ok_frame; [exact Hok | done..| lia].
    + destruct (Hnew eq_refl) as (-> & Ha & Hh).
      destruct Hok as [Hkey Hcache]. split.
      * unfold primary_key. by rewrite Ht.
      * unfold cache_allocated, allocated in *. rewrite Ha.
        apply map_Forall_insert_2; [lia |].
        eapply map_Forall_impl; [exact Hcache |]. simpl. intros _ l Hl. lia.
  - revert H. unfold instance_from_db.
    unfold bind at 1. unfold all_get, gets.
    destruct (all w !! dict_key r0) as [l|].
    + rewrite seq3_then. unfold bind at 1.
      match goal with
      | |- context [bind ?a ?k w] => destruct (bind a k w) as [r' w1] eqn:H
      end.
      apply store_ok_setters in H; [| done].
      destruct r'; by intros [= <- <-].
    + unfold bind at 1.
      destruct (Review r1 r2 r3 VNone w) as [r' w1] eqn:H.
      pose proof H as Hinv.
      apply store_ok_Review in H as [Hok1 _]; [| done].
      apply Review_inv in Hinv
        as [(n & sm & en & _ & _ & _ & Hv' & _)|(_ & [m ->] & _)];
        [done |].
      by intros [= <- <-].
Qed.

Lemma store_ok_for_each (rows : list (pyval * pyval * pyval * pyval))
    (w w' : world) (r : result (list loc)) :
  for_each instance_from_db rows w = (r, w') -> store_ok w -> store_ok w'.
Proof.
  revert w r w'. induction rows as [|row rows IH]; intros w r w'.
  { by intros [= <- <-]. }
  cbn [for_each]. unfold bind at 1.
  destruct (instance_from_db row w) as [[l|x] w1] eqn:H1; intros H Hok;
    apply store_ok_instance_from_db in H1; try done.
  - revert H. unfold bind at 1.
    destruct (for_each instance_from_db rows w1) as [[ls|x] w2] eqn:H2;
      apply IH in H2; try done; by intros [= <- <-].
  - by injection H as <- <-.
Qed.

Lemma primary_key_insert (r : sqlrow) (t : list sqlrow) :
  NoDup (rowid <$> t) -> (forall x, x ∈ t -> rowid x <> rowid r) ->
  NoDup (rowid <$> insert_row r t).
Proof.
  intros Ht Hr. induction t as [|x t IH]; cbn [insert_row].
  { apply NoDup_singleton. }
  assert (Hfresh : rowid r ∉ rowid <$> (x :: t)).
  { intros (x' & Heq & Hx')%list_elem_of_fmap. by apply (Hr x'). }
  destruct (rowid r <? rowid x).
  { rewrite fmap_cons. by apply NoDup_cons. }
  rewrite fmap_cons in Ht |- *. apply NoDup_cons in Ht as [Hx Ht].
  apply NoDup_cons. split.
  - intros (x' & Heq & [->|Hx']%insert_row_elem)%list_elem_of_fmap.
    + apply (Hr x); [left | done].
    + apply Hx. rewrite Heq. by apply list_elem_of_fmap_2.
  - apply IH; [done |]. intros x' Hx'. apply Hr. by right.
Qed.

Lemma primary_key_update (p y s e : sqlval) (t : list sqlrow) :
  rowid <$> ((fun r => if id_equals integer_of_text p r
                       then SqlRow (rowid r) y s e else r) <$> t)
  = rowid <$> t.
Proof.
  rewrite <- list_fmap_compose. apply list_fmap_ext. intros i r _. simpl.
  destruct (id_equals integer_of_text p r); [| done].
  apply rowid_SqlRow, rowid_int64.
Qed.

Lemma primary_key_delete (p : sqlval) (t : list sqlrow) :
  NoDup (rowid <$> t) ->
  NoDup (rowid <$>
    filter (fun r => negb (id_equals integer_of_text p r)) t).
Proof.
  induction t as [|r t IH]; [done |].
  rewrite fmap_cons. intros [Hr Ht]%NoDup_cons.
  rewrite filter_cons. case_decide; [| by apply IH].
  rewrite fmap_cons. apply NoDup_cons. split; [| by apply IH].
  intros (r' & Heq & [_ Hr']%list_elem_of_filter)%list_elem_of_fmap.
  apply Hr. rewrite Heq. by apply list_elem_of_fmap_2.
Qed.

Lemma store_ok_save (self : loc) (w w' : world) (r : result unit) :
  save self w = (r, w') -> store_ok w -> store_ok w'.
Proof.
  intros H Hok.
  destruct (heap w !! self) as [[i [n|] [s|] [e|]]|] eqn:Ho;
    try (revert H; unfold save, year, summary, employee_id, bind, getattr,
           ret; repeat (rewrite Ho; simpl);
         by intros [= <- <-]).
  destruct (decide (storable (VInt n) /\ storable (VStr s)
                    /\ storable (VInt e))) as [(Sn & Ss & Se)|Hbad].
  2:{ destruct (save_refused self _ n s e w Ho eq_refl eq_refl eq_refl Hbad)
        as (x & Hx & _).
      rewrite Hx in H. by injection H as <- <-. }
  destruct (new_rowid (reviews w) (rowid_draws w)) as [[k|] draws] eqn:Hk.
  2:{ rewrite (save_full self _ n s e draws) in H by done.
      injection H as <- <-. by eapply store_ok_frame. }
  rewrite (save_result self _ n s e k draws) in H by done.
  injection H as <- <-.
  destruct (new_rowid_spec _ _ _ _ Hk) as [Hrange Hfresh].
  destruct Hok as [Hkey Hc]. split.
  - unfold primary_key. cbn [reviews]. apply primary_key_insert; [done |].
    intros x Hx. rewrite rowid_SqlRow by done. by apply Hfresh.
  - unfold cache_allocated, allocated in *. cbn [all heap].
    rewrite length_alter. apply map_Forall_insert_2; [| done].
    by eapply lookup_lt_Some.
Qed.

Lemma store_ok_update (self : loc) (w w' : world) (r : result unit) :
  update integer_of_text self w = (r, w') -> store_ok w -> store_ok w'.
Proof.
  intros H Hok.
  destruct (heap w !! self) as [[[k|] [n|] [s|] [e|]]|] eqn:Ho;
    try (revert H; unfold update, year, summary, employee_id, get_id, bind,
           getattr, ret;
         repeat (rewrite Ho; simpl);
         by intros [= <- <-]).
  destruct (decide (storable (VInt n) /\ storable (VStr s)
                    /\ storable (VInt e) /\ storable k))
    as [(Sn & Ss & Se & Sk)|Hbad].
  2:{ destruct (update_refused integer_of_text self _ k n s e w Ho eq_refl
                  eq_refl eq_refl eq_refl Hbad) as (x & Hx & _).
      rewrite Hx in H. by injection H as <- <-. }
  rewrite (update_result integer_of_text self _ k n s e) in H by done.
  injection H as <- <-. apply store_ok_cursor_used.
  destruct Hok as [Hkey Hc]. split; [| done].
  unfold primary_key. cbn [reviews with_reviews].
  by rewrite primary_key_update.
Qed.

Lemma store_ok_delete (self : loc) (w w' : world) (r : result unit) :
  delete integer_of_text self w = (r, w') -> store_ok w -> store_ok w'.
Proof.
  intros H Hok.
  destruct (heap w !! self) as [[[k|] n s e]|] eqn:Ho;
    try (revert H; unfold delete, get_id, bind, getattr;
         repeat (rewrite Ho; simpl); by intros [= <- <-]).
  destruct (decide (storable k)) as [Sk|[x Hx]%not_storable].
  2:{ rewrite (delete_refused integer_of_text self _ k x) in H by done.
      by injection H as <- <-. }
  destruct Hok as [Hkey Hc].
  destruct (all w !! dict_key k) as [c|] eqn:Hk.
  - rewrite (delete_cached integer_of_text self _ k c) in H by done.
    injection H as <- <-. split.
    + unfold primary_key. cbn [reviews]. by apply primary_key_delete.
    + unfold cache_allocated, allocated in *. cbn [all heap].
      rewrite length_alter. by apply map_Forall_delete.
  - rewrite (delete_uncached integer_of_text self _ k) in H by done.
    injection H as <- <-. apply store_ok_cursor_used. split; [| done].
    unfold primary_key. cbn [reviews with_reviews].
    by apply primary_key_delete.
Qed.

(** X13. Whatever it returns or raises, every operation of the class takes a
    store whose rows have distinct ids and whose cache refers to existing
    instances to a store of the same kind: [save] inserts under an unused
    id, [update] changes no id, [delete] only removes rows, and the cache
    only receives instances that exist. *)
Theorem operations_keep_store_ok (w : world) :
  store_ok w ->
  (forall self r w', save self w = (r, w') -> store_ok w')
  /\ (forall y s e r w', create y s e w = (r, w') -> store_ok w')
  /\ (forall row r w', instance_from_db row w = (r, w') -> store_ok w')
  /\ (forall id r w',
        find_by_id integer_of_text id w = (r, w') -> store_ok w')
  /\ (forall r w', get_all w = (r, w') -> store_ok w')
  /\ (forall self r w',
        update integer_of_text self w = (r, w') -> store_ok w')
  /\ (forall self r w',
        delete integer_of_text self w = (r, w') -> store_ok w').
Proof.
  intros Hok. pose proof (store_ok_cursor_used w Hok) as Hok0.
  split_and!.
  - intros self r w' H. by eapply store_ok_save.
  - intros y s e r w'. unfold create. unfold bind at 1.
    destruct (Review y s e VNone w) as [[l|x] w1] eqn:H1;
      apply store_ok_Review in H1 as [Hok1 _]; try done.
    + unfold bind.
      destruct (save l w1) as [[[]|x] w2] eqn:H2;
        apply store_ok_save in H2; try done; by intros [= <- <-].
    + by intros [= <- <-].
  - intros row r w' H. by eapply store_ok_instance_from_db.
  - intros id r w'.
    destruct (decide (storable id)) as [Sid|[x Hx]%not_storable].
    2:{ rewrite (find_by_id_refused _ _ x) by done. by intros [= <- <-]. }
    rewrite find_by_id_rows by done.
    destruct (filter _ (reviews w)) as [|row t]; [by intros [= <- <-] |].
    destruct (instance_from_db (fetch_row row) (cursor_used w))
      as [[l|x] w1] eqn:H1;
      apply store_ok_instance_from_db in H1; try done;
      by intros [= <- <-].
  - intros r w'. unfold get_all, execute_select, bind.
    intros H. by eapply store_ok_for_each.
  - intros self r w' H. by eapply store_ok_update.
  - intros self r w' H. by eapply store_ok_delete.
Qed.

End Lifecycle.

(** ** The further properties on concrete stores *)

(** With the largest row id taken the INSERT draws its id: the first draw
    gives 1, which is in use, the second gives 6, and the new row is
    scanned between the two that were there. *)
Example save_draws_rowid :
  exists w',
    save 0%nat last_key_world = (Ok tt, w')
    /\ reviews w'
       = [SqlRow 1 (SInteger 2023) (SText (py "Good work")) (SInteger 1);
          SqlRow 6 (SInteger 2023) (SText (py "Good work")) (SInteger 1);
          SqlRow max_int64 (SInteger 2024) (SText (py "Solid year"))
            (SInteger 1)]
    /\ lastrowid w' = VInt (PyLong 6)
    /\ rowid_draws w' = [].
Proof.
  eexists. split.
  - apply (save_result 0%nat sample_instance (PyLong 2023) (py "Good work")
             (PyLong 1) 6 []); try reflexivity; try evaluate.
  - split; [vm_compute; reflexivity |]. by split.
Qed.

Lemma find_by_id_none_witness :
  find_by_id decimal_of_text VNone sample_world = (Ok None, sample_world)
  /\ find_by_id decimal_of_text (VInt (PyLong 5)) sample_world
     = (Ok None, sample_world)
  /\ find_by_id decimal_of_text (VInt (PyLong 5)) empty_world
     = (Ok None, cursor_used empty_world)
  /\ lastrowid (cursor_used empty_world) = VInt (PyLong 0)
  /\ find_by_id decimal_of_text (VInt (PyLong (2 ^ 63))) sample_world
     = (Raise overflow_error, sample_world).
Proof.
  assert (H5 : int64 5) by evaluate.
  assert (Hbig : ~ int64 (2 ^ 63)) by evaluate.
  destruct (find_by_id_none decimal_of_text 5 sample_world)
    as (H1 & H2 & _ & _ & _ & _ & _ & H3).
  destruct (find_by_id_none decimal_of_text 5 empty_world)
    as (_ & H4 & _ & _ & _ & _ & H6 & _).
  destruct (find_by_id_none decimal_of_text (2 ^ 63) sample_world)
    as (_ & _ & H7 & _).
  assert (Hsame : cursor_used sample_world = sample_world)
    by (apply H3; discriminate).
  rewrite Hsame in H1.
  split; [exact H1 |]. split.
  { apply (H2 H5). split; [by rewrite Hsame |].
    intros r Hr. apply list_elem_of_singleton in Hr as ->. discriminate. }
  split.
  { apply (H4 H5). split; [done |]. by intros r Hr%not_elem_of_nil. }
  split; [by apply H6 |]. apply (H7 Hbig).
Defined.

Lemma create_rejects_invalid_witness :
  exists m w',
    create (VInt (PyLong 1999)) (VStr (py "Good work")) (VInt (PyLong 1))
      sample_world = (Raise (ValueError m), w')
    /\ reviews w' = reviews sample_world /\ all w' = all sample_world.
Proof.
  assert (Hbad : ~ valid_fields (VInt (PyLong 1999)) (VStr (py "Good work"))
                     (VInt (PyLong 1)) sample_world) by evaluate.
  destruct (create_rejects_invalid _ _ _ _ Hbad)
    as (m & w' & H1 & H2 & H3 & _).
  by exists m, w'.
Defined.


Lemma find_by_id_discards_edits_witness :
  summary 0%nat unsaved_edit_world
  = (Ok (VStr (py "Draft")), unsaved_edit_world)
  /\ exists w',
       find_by_id decimal_of_text (VInt (PyLong 1)) unsaved_edit_world
       = (Ok (Some 0%nat), w')
       /\ summary 0%nat w' = (Ok (VStr (py "Good work")), w').
Proof.
  split; [vm_compute; reflexivity |].
  assert (Hin : SqlRow 1 (SInteger 2023) (SText (py "Good work")) (SInteger 1)
                ∈ reviews unsaved_edit_world) by left.
  assert (Hkey : NoDup (rowid <$> reviews unsaved_edit_world)) by evaluate.
  assert (Hv : valid_row
                 (SqlRow 1 (SInteger 2023) (SText (py "Good work"))
                    (SInteger 1)) unsaved_edit_world) by evaluate.
  destruct (find_by_id_discards_edits decimal_of_text _ 0%nat
              (store_summary (py "Draft") sample_instance)
              unsaved_edit_world Hin Hkey Hv eq_refl eq_refl)
    as (w' & H1 & _ & H2 & _).
  by exists w'.
Defined.

Lemma failed_fetch_updates_year_witness :
  exists w',
    find_by_id decimal_of_text (VInt (PyLong 1)) blank_row_world
    = (Raise summary_error, w')
    /\ year 0%nat w' = (Ok (VInt (PyLong 2025)), w')
    /\ heap w' !! 0%nat ≫= _summary = Some (py "Good work").
Proof.
  assert (Hin : blank_row ∈ reviews blank_row_world) by left.
  assert (Hkey : NoDup (rowid <$> reviews blank_row_world)) by evaluate.
  assert (Hy : 2000 <= 2025) by lia.
  assert (Hs : ~ valid_summary (sql_fetch (c_summary blank_row)))
    by evaluate.
  destruct (failed_fetch_updates_year decimal_of_text blank_row 2025 0%nat
              sample_instance blank_row_world
              Hin Hkey eq_refl Hy Hs eq_refl eq_refl)
    as (w' & H1 & H2 & H3 & _).
  by exists w'.
Defined.

Lemma find_by_id_builds_from_row_witness :
  exists l w',
    find_by_id decimal_of_text (VInt (PyLong 1)) unseen_world
    = (Ok (Some l), w')
    /\ get_id l w' = (Ok (VInt (PyLong 1)), w')
    /\ summary l w' = (Ok (VStr (py "Good work")), w').
Proof.
  assert (Hin : SqlRow 1 (SInteger 2023) (SText (py "Good work")) (SInteger 1)
                ∈ reviews unseen_world) by left.
  assert (Hkey : NoDup (rowid <$> reviews unseen_world)) by evaluate.
  assert (Hv : valid_row
                 (SqlRow 1 (SInteger 2023) (SText (py "Good work"))
                    (SInteger 1)) unseen_world) by evaluate.
  destruct (find_by_id_builds_from_row decimal_of_text _ unseen_world
              Hin Hkey Hv eq_refl)
    as (l & w' & H1 & _ & H2 & _ & H3 & _).
  by exists l, w'.
Defined.

Lemma fetch_never_rebinds_witness :
  all (snd (get_all stale_world)) !! VInt (PyLong 2) = Some 0%nat.
Proof.
  assert (Hk : all stale_world !! VInt (PyLong 2) = Some 0%nat)
    by reflexivity.
  apply (proj2 (fetch_never_rebinds decimal_of_text stale_world _ _ Hk)
           (fst (get_all stale_world))).
  by destruct (get_all stale_world).
Defined.

Lemma get_all_one_instance_per_row_witness :
  exists ls w',
    get_all two_rows_world = (Ok ls, w')
    /\ length ls = 2%nat
    /\ reviews w' = reviews two_rows_world.
Proof.
  assert (Hv : Forall (fun r => valid_row r two_rows_world)
                 (reviews two_rows_world)) by evaluate.
  destruct (proj1 (get_all_one_instance_per_row two_rows_world) Hv)
    as (ls & w' & H1 & H2 & _ & H3).
  by exists ls, w'.
Defined.

Lemma get_all_identity_witness :
  exists w2,
    get_all (snd (get_all two_rows_world)) = (Ok [0%nat; 1%nat], w2)
    /\ all w2 = all (snd (get_all two_rows_world)).
Proof.
  assert (H : get_all two_rows_world
              = (Ok [0%nat; 1%nat], snd (get_all two_rows_world)))
    by (vm_compute; reflexivity).
  destruct (get_all_identity _ _ _ H) as (w2 & H1 & H2 & _).
  by exists w2.
Defined.



Lemma delete_again_raises_witness :
  exists w1,
    delete decimal_of_text 0%nat sample_world = (Ok tt, w1)
    /\ delete decimal_of_text 0%nat w1 = (Raise (KeyError VNone), w1).
Proof.
  assert (HN : int64 1) by evaluate.
  assert (Hnone : all sample_world !! VNone = None)
    by (vm_compute; reflexivity).
  apply (proj1 (delete_again_raises decimal_of_text 0%nat sample_instance 1
                  0%nat sample_world eq_refl eq_refl eq_refl Hnone) HN).
Defined.

Lemma operations_keep_store_ok_witness :
  store_ok sample_world
  /\ store_ok (snd (create (VInt (PyLong 2024)) (VStr (py "Solid year"))
                      (VInt (PyLong 1)) sample_world))
  /\ store_ok (snd (delete decimal_of_text 0%nat sample_world)).
Proof.
  assert (Hok : store_ok sample_world) by evaluate.
  destruct (operations_keep_store_ok decimal_of_text sample_world Hok)
    as (_ & Hcreate & _ & _ & _ & _ & Hdelete).
  split; [exact Hok |]. split.
  - eapply Hcreate. apply surjective_pairing.
  - eapply Hdelete. apply surjective_pairing.
Defined.
